(** * Expense tracker: the ledger logic of [src/app/(tabs)/index.jsx]

    A shallow embedding of the storage helpers, the event handlers
    ([deleteExpense], [addOrUpdateExpense], [resetBalance], [handleChange],
    [editExpense]), the mount effect and the derived totals of the
    [ExpenseTracker] component, followed by the properties proved about
    them.

    JavaScript numbers are IEEE 754 binary64 values; they are modelled by
    Rocq's primitive floats, whose [+] and [-] are the same operations.
    JavaScript strings are modelled by [string]. *)

From Stdlib Require Import Floats ZArith String Ascii List Bool Permutation.
From stdpp Require Import gmap strings pretty.
Import ListNotations.

Set Warnings "-register-all,-inexact-float".
Local Open Scope string_scope.
Local Open Scope list_scope.
Local Open Scope Z_scope.

(** ** JavaScript built-ins used by the component *)

Module JS.

(** A form field or a piece of state holding either a string or
    [null]/[undefined] ([None]). *)
Definition value := option string.

(** ToBoolean on such a value: [null], [undefined] and [""] are falsy. *)
Definition truthy (v : value) : bool :=
  match v with
  | None => false
  | Some s => negb (s =? "")%string
  end.

(** [a || b] where [b] is a string. *)
Definition or_else (a : value) (b : string) : string :=
  match a with
  | Some s => if (s =? "")%string then b else s
  | None => b
  end.

(** [a === b] for a value against a string. *)
Definition strict_eq (a : value) (b : string) : bool :=
  match a with
  | Some s => (s =? b)%string
  | None => false
  end.

(** *** [parseFloat]

    ECMA-262 [parseFloat]: leading white space is dropped, the longest
    prefix that is a [StrDecimalLiteral] is read, and its mathematical value
    is rounded to the nearest binary64 (ties to even); with no such prefix the
    result is [NaN].  White space is the ASCII part of the JavaScript set. *)

Definition is_space (c : ascii) : bool :=
  let n := nat_of_ascii c in
  ((9 <=? n) && (n <=? 13) || (n =? 32))%nat.

Fixpoint trim_start (s : string) : string :=
  match s with
  | String c r => if is_space c then trim_start r else s
  | EmptyString => s
  end.

Definition digit_of (c : ascii) : option Z :=
  let n := nat_of_ascii c in
  if ((48 <=? n) && (n <=? 57))%nat then Some (Z.of_nat n - 48) else None.

(** [DecimalDigits_opt]: the digits at the front of [s], most significant
    first, and the rest of [s]. *)
Fixpoint span_digits (s : string) : list Z * string :=
  match s with
  | String c r =>
      match digit_of c with
      | Some d => let '(ds, rest) := span_digits r in (d :: ds, rest)
      | None => ([], s)
      end
  | EmptyString => ([], s)
  end.

Definition digits_value (ds : list Z) : Z :=
  fold_left (fun acc d => 10 * acc + d) ds 0.

(** [ExponentPart_opt]: [e] or [E], an optional sign and at least one digit;
    anything else is not part of the literal and counts as exponent [0]. *)
Definition exponent_part (s : string) : Z :=
  match s with
  | String c r =>
      if ((c =? "e") || (c =? "E"))%char then
        let '(neg, r') :=
          match r with
          | String "+" r' => (false, r')
          | String "-" r' => (true, r')
          | _ => (false, r)
          end in
        match fst (span_digits r') with
        | [] => 0
        | ds => if neg then - digits_value ds else digits_value ds
        end
      else 0
  | EmptyString => 0
  end.

(** The binary64 nearest to [m * 10 ^ e10], for [0 <= m]. *)
Definition decimal_to_float (m e10 : Z) : float :=
  match m with
  | Zpos p =>
      SF2Prim (SFdiv prec emax
                 (S754_finite false (p * Z.to_pos (10 ^ Z.max e10 0)) 0)
                 (S754_finite false (Z.to_pos (10 ^ Z.max (- e10) 0)) 0))
  | _ => 0%float
  end.

(** [StrUnsignedDecimalLiteral] at the front of [s], if any. *)
Definition unsigned_literal (s : string) : option float :=
  if String.prefix "Infinity" s then Some infinity
  else
    let '(ip, r1) := span_digits s in
    let '(fp, r2) :=
      match r1 with
      | String "." r => span_digits r
      | _ => ([], r1)
      end in
    match ip, fp with
    | [], [] => None
    | _, _ =>
        Some (decimal_to_float (digits_value (ip ++ fp))
                (exponent_part r2 - Z.of_nat (length fp)))
    end.

Definition parseFloat (s : string) : float :=
  let t := trim_start s in
  let '(neg, u) :=
    match t with
    | String "+" r => (false, r)
    | String "-" r => (true, r)
    | _ => (false, t)
    end in
  match unsigned_literal u with
  | Some a => if neg then (- a)%float else a
  | None => nan
  end.

(** [Number.isFinite(x) && x > 0]. *)
Definition finite_positive (x : float) : bool :=
  (0 <? x)%float && (x <? infinity)%float.

(** *** [Number.prototype.toString]

    ECMA-262 [Number::toString] in radix 10: the fewest decimal digits [s]
    with a power of ten [10 ^ e10] such that [s * 10 ^ e10] rounds to the
    number, the closest such [s] when there are several, laid out in plain or
    exponent notation. *)

Definition decimal_length (p : Z) : Z := Z.of_nat (String.length (pretty p)).

(** The [n] with [10 ^ (n - 1) <= p / q < 10 ^ n], for positive [p], [q]. *)
Definition decimal_exponent (p q : Z) : Z :=
  let d := decimal_length p - decimal_length q in
  if p * 10 ^ Z.max (- d) 0 <? q * 10 ^ Z.max d 0 then d else d + 1.

(** Among the two [k]-digit neighbours of [p / q], the one that reads back
    as [x], the closer one when both do. *)
Definition digits_at (x : float) (p q n k : Z) : option Z :=
  let t := k - n in
  let num := p * 10 ^ Z.max t 0 in
  let den := q * 10 ^ Z.max (- t) 0 in
  let lo := num / den in
  let hi := lo + 1 in
  let lo_ok := (decimal_to_float lo (n - k) =? x)%float in
  let hi_ok := (decimal_to_float hi (n - k) =? x)%float in
  match lo_ok, hi_ok with
  | true, true =>
      match 2 * (num mod den) ?= den with
      | Lt => Some lo
      | Gt => Some hi
      | Eq => Some (if Z.even lo then lo else hi)
      end
  | true, false => Some lo
  | false, true => Some hi
  | false, false => None
  end.

(** The digits found with the fewest [k], from [k] upwards, and their power
    of ten. *)
Fixpoint shortest_digits (x : float) (p q n k : Z) (fuel : nat) : Z * Z :=
  match fuel with
  | O => (p * 10 ^ Z.max (k - n) 0 / (q * 10 ^ Z.max (n - k) 0), n - k)
  | S fuel' =>
      match digits_at x p q n k with
      | Some s => (s, n - k)
      | None => shortest_digits x p q n (k + 1) fuel'
      end
  end.

Fixpoint strip_zeros (s e10 : Z) (fuel : nat) : Z * Z :=
  match fuel with
  | O => (s, e10)
  | S fuel' =>
      if (0 <? s) && (s mod 10 =? 0) then strip_zeros (s / 10) (e10 + 1) fuel'
      else (s, e10)
  end.

Definition zeros (n : Z) : string := String.concat "" (repeat "0" (Z.to_nat n)).

(** The text for digits [s] times [10 ^ e10]. *)
Definition layout (s e10 : Z) : string :=
  let ds := pretty s in
  let k := decimal_length s in
  let n := k + e10 in
  if (k <=? n) && (n <=? 21) then (ds ++ zeros (n - k))%string
  else if (0 <? n) && (n <=? 21) then
    (String.substring 0 (Z.to_nat n) ds ++ "."
     ++ String.substring (Z.to_nat n) (Z.to_nat (k - n)) ds)%string
  else if (-6 <? n) && (n <=? 0) then ("0." ++ zeros (- n) ++ ds)%string
  else
    let sign := if n - 1 <? 0 then "e-" else "e+" in
    let exponent := (sign ++ pretty (Z.abs (n - 1)))%string in
    if k =? 1 then (ds ++ exponent)%string
    else (String.substring 0 1 ds ++ "."
          ++ String.substring 1 (Z.to_nat (k - 1)) ds ++ exponent)%string.

Definition Number_toString (x : float) : string :=
  match Prim2SF x with
  | S754_nan => "NaN"
  | S754_zero _ => "0"
  | S754_infinity negative => if negative then "-Infinity" else "Infinity"
  | S754_finite negative m e =>
      let p := Zpos m * 2 ^ Z.max e 0 in
      let q := 2 ^ Z.max (- e) 0 in
      let '(s, e10) := shortest_digits (abs x) p q (decimal_exponent p q) 1 17 in
      let '(s', e10') := strip_zeros s e10 18 in
      ((if negative then "-" else "") ++ layout s' e10')%string
  end.

End JS.

(** ** Data model *)

(** A stored transaction: the object literal built at lines 175-183. *)
Module Transaction.
Record t := mk {
  id : string;
  date : string;
  description : string;
  category : string;
  amount : float;
  paymentMethod : string;
  type : string
}.
End Transaction.

(** The [form] state (lines 88-95).  The pickers hand [null] to
    [handleChange] when their placeholder is chosen, so every field is a
    nullable string. *)
Module Form.
Record t := mk {
  date : JS.value;
  description : JS.value;
  category : JS.value;
  amount : JS.value;
  paymentMethod : JS.value;
  type : JS.value
}.

(** The form written back after a successful save (lines 218-225), which is
    also the initial one. *)
Definition blank : t :=
  mk (Some "") (Some "") (Some "") (Some "") (Some "") (Some "expense").
End Form.

(** JSON values, as handed to [JSON.stringify] and returned by
    [JSON.parse]. *)
Inductive json :=
| JNull
| JBool (b : bool)
| JNumber (x : float)
| JString (s : string)
| JArray (items : list json)
| JObject (fields : list (string * json)).

Definition json_of_transaction (e : Transaction.t) : json :=
  JObject [ ("id", JString (Transaction.id e));
            ("date", JString (Transaction.date e));
            ("description", JString (Transaction.description e));
            ("category", JString (Transaction.category e));
            ("amount", JNumber (Transaction.amount e));
            ("paymentMethod", JString (Transaction.paymentMethod e));
            ("type", JString (Transaction.type e)) ].

Definition json_of_expenses (expenses : list Transaction.t) : json :=
  JArray (map json_of_transaction expenses).

Definition STORAGE_KEY : string := "expenses".
Definition BALANCE_KEY : string := "permanentBalance".
Definition TOTAL_INCOME_KEY : string := "totalIncome".

(** ** The world a handler runs in

    The component state the handlers read and set, the three devices they
    talk to (AsyncStorage, [Alert], [console]) and what the environment
    decides for them: the clock reading of [Date.now()] and which storage
    calls reject. *)
Record World := mkWorld {
  form : Form.t;
  expenses : list Transaction.t;
  editingId : JS.value;
  permanentBalance : float;
  permanentTotalIncome : float;
  storage : gmap string string;
  alerts : list (string * string);
  console : list string;
  clock : Z;
  setItem_rejects : string -> bool;
  getItem_rejects : string -> bool
}.

Inductive error :=
| StorageError (key : string)
| SyntaxError (text : string).

Inductive outcome (A : Type) :=
| Normal (a : A)
| Throw (e : error).
Arguments Normal {A} a.
Arguments Throw {A} e.

(** Computations that read and change the world and may throw. *)
Definition M (A : Type) : Type := World -> outcome A * World.

Definition ret {A} (a : A) : M A := fun w => (Normal a, w).

Definition bind {A B} (c : M A) (k : A -> M B) : M B :=
  fun w =>
    match c w with
    | (Normal a, w') => k a w'
    | (Throw e, w') => (Throw e, w')
    end.

Definition throw {A} (e : error) : M A := fun w => (Throw e, w).

(** [try { body } catch (error) { handler }] *)
Definition try_catch {A} (body : M A) (handler : error -> M A) : M A :=
  fun w =>
    match body w with
    | (Normal a, w') => (Normal a, w')
    | (Throw e, w') => handler e w'
    end.

Definition gets {A} (f : World -> A) : M A := fun w => (Normal (f w), w).
Definition modify (f : World -> World) : M unit := fun w => (Normal tt, f w).

Declare Scope js_scope.
Delimit Scope js_scope with js.
Notation "'let!' x ':=' c 'in' k" := (bind c (fun x => k))
  (at level 10, x name, c at level 100, k at level 200) : js_scope.
Notation "c ;; k" := (bind c (fun _ => k)) : js_scope.
Local Open Scope js_scope.

(** The state setters of [useState]. *)
Definition setForm (v : Form.t) : M unit :=
  modify (fun w => mkWorld v (expenses w) (editingId w) (permanentBalance w)
    (permanentTotalIncome w) (storage w) (alerts w) (console w) (clock w)
    (setItem_rejects w) (getItem_rejects w)).

Definition setExpenses (v : list Transaction.t) : M unit :=
  modify (fun w => mkWorld (form w) v (editingId w) (permanentBalance w)
    (permanentTotalIncome w) (storage w) (alerts w) (console w) (clock w)
    (setItem_rejects w) (getItem_rejects w)).

Definition setEditingId (v : JS.value) : M unit :=
  modify (fun w => mkWorld (form w) (expenses w) v (permanentBalance w)
    (permanentTotalIncome w) (storage w) (alerts w) (console w) (clock w)
    (setItem_rejects w) (getItem_rejects w)).

Definition setPermanentBalance (v : float) : M unit :=
  modify (fun w => mkWorld (form w) (expenses w) (editingId w) v
    (permanentTotalIncome w) (storage w) (alerts w) (console w) (clock w)
    (setItem_rejects w) (getItem_rejects w)).

Definition setPermanentTotalIncome (v : float) : M unit :=
  modify (fun w => mkWorld (form w) (expenses w) (editingId w)
    (permanentBalance w) v (storage w) (alerts w) (console w) (clock w)
    (setItem_rejects w) (getItem_rejects w)).

(** The devices. *)
Definition AsyncStorage_setItem (key text : string) : M unit :=
  fun w =>
    if setItem_rejects w key then (Throw (StorageError key), w)
    else (Normal tt,
          mkWorld (form w) (expenses w) (editingId w) (permanentBalance w)
            (permanentTotalIncome w) (<[key := text]> (storage w)) (alerts w)
            (console w) (clock w) (setItem_rejects w) (getItem_rejects w)).

Definition AsyncStorage_getItem (key : string) : M (option string) :=
  fun w =>
    if getItem_rejects w key then (Throw (StorageError key), w)
    else (Normal (storage w !! key), w).

Definition Alert_alert (title message : string) : M unit :=
  modify (fun w => mkWorld (form w) (expenses w) (editingId w)
    (permanentBalance w) (permanentTotalIncome w) (storage w)
    (alerts w ++ [(title, message)]) (console w) (clock w)
    (setItem_rejects w) (getItem_rejects w)).

Definition console_error (message : string) : M unit :=
  modify (fun w => mkWorld (form w) (expenses w) (editingId w)
    (permanentBalance w) (permanentTotalIncome w) (storage w) (alerts w)
    (console w ++ [message]) (clock w) (setItem_rejects w)
    (getItem_rejects w)).

(** [Date.now().toString()]: the clock reading is an integer number of
    milliseconds, printed in decimal. *)
Definition Date_now_toString : M string :=
  gets (fun w => pretty (clock w)).

(** The button pressed in a two-button confirmation alert. *)
Inductive button := Cancel | Destructive.

(** ** The component *)

Section Component.

(** [JSON.stringify] and [JSON.parse] ([None] when it throws a
    [SyntaxError]) are taken as given. *)
Variable JSON_stringify : json -> string.
Variable JSON_parse : string -> option json.

Definition JSON_parse_or_throw (text : string) : M json :=
  match JSON_parse text with
  | Some v => ret v
  | None => throw (SyntaxError text)
  end.

(** *** Async storage helper functions (lines 14-66) *)

Definition saveExpensesToStorage (expenses : list Transaction.t) : M unit :=
  try_catch
    (AsyncStorage_setItem STORAGE_KEY (JSON_stringify (json_of_expenses expenses)))
    (fun error => console_error "Failed to save expenses:").

Definition loadExpensesFromStorage : M json :=
  try_catch
    (let! storedExpenses := AsyncStorage_getItem STORAGE_KEY in
     if JS.truthy storedExpenses
     then JSON_parse_or_throw (JS.or_else storedExpenses "")
     else ret (JArray []))
    (fun error => console_error "Failed to load expenses:";; ret (JArray [])).

Definition saveBalanceToStorage (balance : float) : M unit :=
  try_catch
    (AsyncStorage_setItem BALANCE_KEY (JSON_stringify (JNumber balance)))
    (fun error => console_error "Failed to save balance:").

Definition loadBalanceFromStorage : M json :=
  try_catch
    (let! storedBalance := AsyncStorage_getItem BALANCE_KEY in
     if JS.truthy storedBalance
     then JSON_parse_or_throw (JS.or_else storedBalance "")
     else ret (JNumber 0))
    (fun error => console_error "Failed to load balance:";; ret (JNumber 0)).

Definition saveTotalIncomeToStorage (totalIncome : float) : M unit :=
  try_catch
    (AsyncStorage_setItem TOTAL_INCOME_KEY (JSON_stringify (JNumber totalIncome)))
    (fun error => console_error "Failed to save total income:").

Definition loadTotalIncomeFromStorage : M json :=
  try_catch
    (let! storedTotalIncome := AsyncStorage_getItem TOTAL_INCOME_KEY in
     if JS.truthy storedTotalIncome
     then JSON_parse_or_throw (JS.or_else storedTotalIncome "")
     else ret (JNumber 0))
    (fun error => console_error "Failed to load total income:";; ret (JNumber 0)).

(** *** [deleteExpense] (lines 137-162)

    [pressed] is the button the user presses in the confirmation alert;
    the [onPress] of "Delete" runs only for [Destructive]. *)
Definition deleteExpense (id : string) (pressed : button) : M unit :=
  Alert_alert "Delete Transaction"
    "Are you sure you want to delete this transaction? The balance will remain unchanged.";;
  match pressed with
  | Cancel => ret tt
  | Destructive =>
      try_catch
        (let! expenses := gets expenses in
         let updatedExpenses :=
           List.filter (fun expense => negb (Transaction.id expense =? id)%string)
             expenses in
         saveExpensesToStorage updatedExpenses;;
         setExpenses updatedExpenses;;
         Alert_alert "Success" "Transaction deleted from history")
        (fun error =>
           console_error "Delete error:";;
           Alert_alert "Error" "Failed to delete transaction")
  end.

(** *** [addOrUpdateExpense] (lines 165-238)

    The three saves of [Promise.all] are started in the order of the array;
    each catches its own failure and none reads what another writes. *)
Definition addOrUpdateExpense : M unit :=
  let! form := gets form in
  let! expenses := gets expenses in
  let! editingId := gets editingId in
  let! permanentBalance := gets permanentBalance in
  let! permanentTotalIncome := gets permanentTotalIncome in
  let date := Form.date form in
  let description := Form.description form in
  let category := Form.category form in
  let amount := Form.amount form in
  let paymentMethod := Form.paymentMethod form in
  let type := Form.type form in
  if negb (JS.truthy date) || negb (JS.truthy description)
     || negb (JS.truthy category) || negb (JS.truthy amount)
     || negb (JS.truthy paymentMethod)
  then Alert_alert "Error" "Please fill in all fields."
  else
    try_catch
      (let parsedAmount := JS.parseFloat (JS.or_else amount "") in
       let! id :=
         if JS.truthy editingId then ret (JS.or_else editingId "")
         else Date_now_toString in
       let newExpense :=
         Transaction.mk id
           (JS.or_else date "") (JS.or_else description "")
           (JS.or_else category "") parsedAmount
           (JS.or_else paymentMethod "") (JS.or_else type "expense") in
       let updatedExpenses :=
         if JS.truthy editingId
         then map (fun expense =>
                     if JS.strict_eq editingId (Transaction.id expense)
                     then newExpense else expense) expenses
         else expenses ++ [newExpense] in
       let newBalance :=
         if JS.strict_eq type "income"
         then (permanentBalance + parsedAmount)%float
         else (permanentBalance - parsedAmount)%float in
       let newTotalIncome :=
         if JS.strict_eq type "income"
         then (permanentTotalIncome + parsedAmount)%float
         else permanentTotalIncome in
       saveExpensesToStorage updatedExpenses;;
       saveBalanceToStorage newBalance;;
       saveTotalIncomeToStorage newTotalIncome;;
       setExpenses updatedExpenses;;
       setPermanentBalance newBalance;;
       setPermanentTotalIncome newTotalIncome;;
       setForm Form.blank;;
       setEditingId None;;
       Alert_alert "Success"
         (if JS.truthy editingId
          then String.append (if JS.strict_eq type "income" then "Income" else "Expense") " updated"
          else String.append (if JS.strict_eq type "income" then "Income" else "Expense") " added"))
      (fun error =>
         console_error "Save error:";;
         Alert_alert "Error" "Failed to save transaction").

(** *** [resetBalance] (lines 324-347) *)
Definition resetBalance (pressed : button) : M unit :=
  Alert_alert "Reset Balance"
    "Are you sure you want to reset your current balance to 0?";;
  match pressed with
  | Cancel => ret tt
  | Destructive =>
      try_catch
        (saveBalanceToStorage 0;;
         setPermanentBalance 0;;
         Alert_alert "Success" "Balance has been reset to 0")
        (fun error =>
           console_error "Reset error:";;
           Alert_alert "Error" "Failed to reset balance")
  end.

End Component.

(** *** Derived totals (lines 256 and 309-321) *)

Definition totalAmount (expenses : list Transaction.t) : float :=
  fold_left (fun sum e => (sum + Transaction.amount e)%float) expenses 0%float.

Definition totalIncome (expenses : list Transaction.t) : float :=
  fold_left (fun sum e => (sum + Transaction.amount e)%float)
    (List.filter (fun item => (Transaction.type item =? "income")%string) expenses)
    0%float.

Definition totalExpenses (expenses : list Transaction.t) : float :=
  fold_left (fun sum e => (sum + Transaction.amount e)%float)
    (List.filter (fun item => (Transaction.type item =? "expense")%string) expenses)
    0%float.

(** ** Worlds to run the handlers on *)

(** Stand-ins for [JSON.stringify] and [JSON.parse] when a handler is run on
    a concrete world.  No handler looks at the text it writes, and the
    examples below load nothing. *)
Definition placeholder_stringify (v : json) : string := "<json>".
Definition no_parse (text : string) : option json := None.

(** The state of a freshly mounted component over an empty store. *)
Definition initial_world (now : Z) (rejects : string -> bool) : World :=
  mkWorld Form.blank [] None 0%float 0%float ∅ [] [] now rejects rejects.

(** What the user and the environment do between two handler calls: filling
    the form (what [handleChange] and [handleDateChange] amount to), choosing
    a transaction to edit, and time passing. *)
Definition fill (f : Form.t) : M unit := setForm f.
Definition edit (id : string) : M unit := setEditingId (Some id).
Definition at_time (now : Z) : M unit :=
  modify (fun w => mkWorld (form w) (expenses w) (editingId w)
    (permanentBalance w) (permanentTotalIncome w) (storage w) (alerts w)
    (console w) now (setItem_rejects w) (getItem_rejects w)).

Definition entry (date description category amount paymentMethod type : string)
  : Form.t :=
  Form.mk (Some date) (Some description) (Some category) (Some amount)
    (Some paymentMethod) (Some type).

(** The five required fields are all present and non-empty: the negation of
    the test at line 168. *)
Definition all_filled (f : Form.t) : bool :=
  JS.truthy (Form.date f) && JS.truthy (Form.description f)
  && JS.truthy (Form.category f) && JS.truthy (Form.amount f)
  && JS.truthy (Form.paymentMethod f).

(** The transaction [addOrUpdateExpense] builds from a form, given its id. *)
Definition expense_of (id : string) (f : Form.t) : Transaction.t :=
  Transaction.mk id
    (JS.or_else (Form.date f) "") (JS.or_else (Form.description f) "")
    (JS.or_else (Form.category f) "")
    (JS.parseFloat (JS.or_else (Form.amount f) ""))
    (JS.or_else (Form.paymentMethod f) "") (JS.or_else (Form.type f) "expense").

(** ** Specification-side definitions *)

(** [removed i l l']: [l'] is [l] without the transactions whose id is [i],
    the others kept in their order. *)
Inductive removed (i : string) : list Transaction.t -> list Transaction.t -> Prop :=
| removed_nil : removed i [] []
| removed_drop e l l' :
    Transaction.id e = i -> removed i l l' -> removed i (e :: l) l'
| removed_keep e l l' :
    Transaction.id e <> i -> removed i l l' -> removed i (e :: l) (e :: l').

(** The sum of the amounts of the transactions satisfying [p], added one
    after the other in list order onto the running total [acc]. *)
Fixpoint sum_where (p : Transaction.t -> bool) (l : list Transaction.t)
    (acc : float) : float :=
  match l with
  | [] => acc
  | e :: r => sum_where p r (if p e then (acc + Transaction.amount e)%float else acc)
  end.

Definition is_income (e : Transaction.t) : bool :=
  (Transaction.type e =? "income")%string.
Definition is_expense (e : Transaction.t) : bool :=
  (Transaction.type e =? "expense")%string.




(** The three persisted records, with their keys, their documented defaults
    and the helper that loads each. *)
Inductive record := Expenses | Balance | TotalIncome.

Definition key_of (r : record) : string :=
  match r with
  | Expenses => STORAGE_KEY
  | Balance => BALANCE_KEY
  | TotalIncome => TOTAL_INCOME_KEY
  end.

Definition default_of (r : record) : json :=
  match r with
  | Expenses => JArray []
  | Balance | TotalIncome => JNumber 0
  end.

Definition load (JSON_parse : string -> option json) (r : record) : M json :=
  match r with
  | Expenses => loadExpensesFromStorage JSON_parse
  | Balance => loadBalanceFromStorage JSON_parse
  | TotalIncome => loadTotalIncomeFromStorage JSON_parse
  end.

(** The stored value is absent or unreadable: reading it rejects, there is
    nothing (or the empty string) under the key, or [JSON.parse] throws on
    the text. *)
Definition absent_or_unreadable (JSON_parse : string -> option json)
    (key : string) (w : World) : Prop :=
  getItem_rejects w key = true
  \/ storage w !! key = None
  \/ storage w !! key = Some ""
  \/ exists text, storage w !! key = Some text /\ JSON_parse text = None.

(** ** Scenarios

    Concrete runs over a store that accepts every write ([store_ok]) or
    rejects every write ([store_down]). *)

Definition store_ok (key : string) : bool := false.
Definition store_down (key : string) : bool := true.

Definition salary : Form.t :=
  entry "2024-01-05" "January pay" "Salary" "1000" "Cash" "income".
Definition lunch : Form.t :=
  entry "2024-01-06" "Lunch" "Food" "200" "Cash" "expense".
Definition raise : Form.t :=
  entry "2024-01-05" "January pay" "Salary" "1500" "Cash" "income".
Definition no_description : Form.t :=
  Form.mk (Some "2024-01-07") (Some "") (Some "Travel") (Some "50")
    (Some "Cash") (Some "expense").
Definition zero_amount : Form.t :=
  entry "2024-01-07" "Nothing" "Other" "0" "Cash" "expense".

Definition after (steps : M unit) (w : World) : World := snd (steps w).

(** The salary form typed into a fresh component. *)
Definition salary_typed : World :=
  after (fill salary) (initial_world 1700000000000 store_ok).

(** Scenarios A and B of the specification: the salary, then the lunch. *)
Definition salary_and_lunch : World :=
  after (addOrUpdateExpense placeholder_stringify;;
         at_time 1700000060000;;
         fill lunch;;
         addOrUpdateExpense placeholder_stringify) salary_typed.

(** Scenario D: the salary chosen for editing with 1500 typed in. *)
Definition raise_typed : World :=
  after (fill raise;; edit "1700000000000") salary_and_lunch.

Definition no_description_typed : World :=
  after (fill no_description) salary_and_lunch.

Definition zero_amount_typed : World :=
  after (fill zero_amount) (initial_world 1700000000000 store_ok).

(** The salary form typed into a fresh component whose store rejects every
    write. *)
Definition salary_typed_store_down : World :=
  after (fill salary) (initial_world 1700000000000 store_down).

(** Three entries of 0.1 (income), 0.2 (expense) and 0.4 (income). *)
Definition dime : Form.t := entry "2024-02-01" "Refund" "Other" "0.1" "Cash" "income".
Definition sweets : Form.t := entry "2024-02-02" "Sweets" "Food" "0.2" "Cash" "expense".

Definition dime_typed : World :=
  after (fill dime) (initial_world 1706745600000 store_ok).
Definition sweets_typed : World :=
  after (addOrUpdateExpense placeholder_stringify;;
         at_time 1706832000000;; fill sweets) dime_typed.

(** ** JSON texts

    [JSON.stringify] on the values of type [json], and a reader for the
    texts it produces.  The reader returns what [JSON.parse] returns on every
    text it accepts; it is narrower than [JSON.parse]: it rejects a [\u]
    escape, and an object with a repeated key or a key that is an array
    index, whose members [JSON.parse] would merge or reorder. *)

Module JSON.

Definition hex_digit (n : nat) : ascii :=
  ascii_of_nat (if (n <? 10)%nat then 48 + n else 87 + n).

(** [QuoteJSONString], one character at a time. *)
Definition escape (c : ascii) : string :=
  let n := nat_of_ascii c in
  if (n =? 34)%nat then String "\" (String c "")
  else if (n =? 92)%nat then "\\"
  else if (n =? 8)%nat then "\b"
  else if (n =? 9)%nat then "\t"
  else if (n =? 10)%nat then "\n"
  else if (n =? 12)%nat then "\f"
  else if (n =? 13)%nat then "\r"
  else if (n <? 32)%nat then
    ("\u00" ++ String (hex_digit (n / 16)) (String (hex_digit (n mod 16)) ""))%string
  else String c "".

Fixpoint escape_all (s : string) : string :=
  match s with
  | String c r => (escape c ++ escape_all r)%string
  | EmptyString => ""
  end.

Definition quote (s : string) : string :=
  String "034" (escape_all s ++ String "034" "")%string.

Definition is_finite (x : float) : bool := (abs x <? infinity)%float.

Fixpoint stringify (v : json) : string :=
  match v with
  | JNull => "null"
  | JBool b => if b then "true" else "false"
  | JNumber x => if is_finite x then JS.Number_toString x else "null"
  | JString s => quote s
  | JArray items => ("[" ++ String.concat "," (map stringify items) ++ "]")%string
  | JObject fields =>
      ("{" ++ String.concat ","
                (map (fun kv => (quote (fst kv) ++ ":" ++ stringify (snd kv))%string)
                   fields)
       ++ "}")%string
  end.

(** *** Reading *)

Definition is_ws (c : ascii) : bool :=
  let n := nat_of_ascii c in
  ((n =? 32) || (n =? 9) || (n =? 10) || (n =? 13))%nat.

Fixpoint skip_ws (s : string) : string :=
  match s with
  | String c r => if is_ws c then skip_ws r else s
  | EmptyString => s
  end.

(** The characters of a string up to its closing quote, and what follows
    the quote. *)
Fixpoint read_string (s : string) : option (string * string) :=
  match s with
  | EmptyString => None
  | String c r =>
      let n := nat_of_ascii c in
      if (n =? 34)%nat then Some ("", r)
      else if (n =? 92)%nat then
        match r with
        | String e r' =>
            let m := nat_of_ascii e in
            let plain :=
              if (m =? 34)%nat then Some e
              else if (m =? 92)%nat then Some e
              else if (m =? 47)%nat then Some e
              else if (e =? "b")%char then Some (ascii_of_nat 8)
              else if (e =? "f")%char then Some (ascii_of_nat 12)
              else if (e =? "n")%char then Some (ascii_of_nat 10)
              else if (e =? "r")%char then Some (ascii_of_nat 13)
              else if (e =? "t")%char then Some (ascii_of_nat 9)
              else None in
            match plain, read_string r' with
            | Some a, Some (body, rest) => Some (String a body, rest)
            | _, _ => None
            end
        | EmptyString => None
        end
      else if (n <? 32)%nat then None
      else
        match read_string r with
        | Some (body, rest) => Some (String c body, rest)
        | None => None
        end
  end.

(** A JSON number: [-]? int frac? exp?, with no leading zero in [int]. *)
Definition read_number (s : string) : option (float * string) :=
  let '(negative, s1) :=
    match s with
    | String "-" r => (true, r)
    | _ => (false, s)
    end in
  let '(ip, r1) := JS.span_digits s1 in
  match ip with
  | [] => None
  | d :: more =>
      if (d =? 0) && negb (length more =? 0)%nat then None
      else
        let fraction :=
          match r1 with
          | String "." r =>
              let '(fp, r2) := JS.span_digits r in
              match fp with
              | [] => None
              | _ => Some (fp, r2)
              end
          | _ => Some ([], r1)
          end in
        match fraction with
        | None => None
        | Some (fp, r2) =>
            let '(ex, r3) :=
              match r2 with
              | String c r =>
                  if ((c =? "e") || (c =? "E"))%char then
                    let '(minus, r') :=
                      match r with
                      | String "+" r' => (false, r')
                      | String "-" r' => (true, r')
                      | _ => (false, r)
                      end in
                    let '(ds, r'') := JS.span_digits r' in
                    match ds with
                    | [] => (None, r2)
                    | _ => (Some (if minus then - JS.digits_value ds
                                  else JS.digits_value ds), r'')
                    end
                  else (Some 0, r2)
              | EmptyString => (Some 0, r2)
              end in
            match ex with
            | None => None
            | Some e10 =>
                let a := JS.decimal_to_float (JS.digits_value (ip ++ fp))
                           (e10 - Z.of_nat (length fp)) in
                Some (if negative then (- a)%float else a, r3)
            end
        end
  end.

(** A key that [JSON.parse] would treat as an array index: decimal digits
    with no leading zero. *)
Definition index_like (k : string) : bool :=
  match JS.span_digits k with
  | (d :: more, EmptyString) => negb ((d =? 0) && negb (length more =? 0)%nat)
  | _ => false
  end.

Definition has_key (k : string) (fields : list (string * json)) : bool :=
  existsb (fun kv => (fst kv =? k)%string) fields.

Definition strip_prefix (p s : string) : option string :=
  if String.prefix p s
  then Some (String.substring (String.length p) (String.length s - String.length p) s)
  else None.

Fixpoint read_value (fuel : nat) (s : string) : option (json * string) :=
  match fuel with
  | O => None
  | S fuel' =>
      let read_items :=
        fix read_items (n : nat) (s : string) (acc : list json)
            : option (list json * string) :=
          match n with
          | O => None
          | S n' =>
              match read_value fuel' (skip_ws s) with
              | Some (v, r) =>
                  match skip_ws r with
                  | String "," r' => read_items n' r' (acc ++ [v])
                  | String "]" r' => Some (acc ++ [v], r')
                  | _ => None
                  end
              | None => None
              end
          end in
      let read_members :=
        fix read_members (n : nat) (s : string) (acc : list (string * json))
            : option (list (string * json) * string) :=
          match n with
          | O => None
          | S n' =>
              match skip_ws s with
              | String q r =>
                  if (nat_of_ascii q =? 34)%nat then
                    match read_string r with
                    | Some (k, r1) =>
                        if index_like k || has_key k acc then None
                        else
                          match skip_ws r1 with
                          | String ":" r2 =>
                              match read_value fuel' (skip_ws r2) with
                              | Some (v, r3) =>
                                  match skip_ws r3 with
                                  | String "," r4 => read_members n' r4 (acc ++ [(k, v)])
                                  | String "}" r4 => Some (acc ++ [(k, v)], r4)
                                  | _ => None
                                  end
                              | None => None
                              end
                          | _ => None
                          end
                    | None => None
                    end
                  else None
              | EmptyString => None
              end
          end in
      match s with
      | EmptyString => None
      | String c r =>
          if (nat_of_ascii c =? 34)%nat then
            match read_string r with
            | Some (body, rest) => Some (JString body, rest)
            | None => None
            end
          else if (c =? "[")%char then
            match skip_ws r with
            | String "]" r' => Some (JArray [], r')
            | _ =>
                match read_items (String.length s) r [] with
                | Some (items, rest) => Some (JArray items, rest)
                | None => None
                end
            end
          else if (c =? "{")%char then
            match skip_ws r with
            | String "}" r' => Some (JObject [], r')
            | _ =>
                match read_members (String.length s) r [] with
                | Some (fields, rest) => Some (JObject fields, rest)
                | None => None
                end
            end
          else
            match strip_prefix "null" s, strip_prefix "true" s, strip_prefix "false" s with
            | Some rest, _, _ => Some (JNull, rest)
            | _, Some rest, _ => Some (JBool true, rest)
            | _, _, Some rest => Some (JBool false, rest)
            | _, _, _ =>
                match read_number s with
                | Some (x, rest) => Some (JNumber x, rest)
                | None => None
                end
            end
      end
  end.

Definition parse (text : string) : option json :=
  match read_value (S (String.length text)) (skip_ws text) with
  | Some (v, rest) =>
      match skip_ws rest with
      | EmptyString => Some v
      | _ => None
      end
  | None => None
  end.

End JSON.

(** ** The rest of the component *)

(** The names [handleChange] is called with. *)
Module Field.
Inductive t := date | description | category | amount | paymentMethod | type.
End Field.

(** [handleChange] (lines 118-120): [setForm(prev => ({...prev, [name]: value}))]. *)
Definition handleChange (name : Field.t) (value : JS.value) : M unit :=
  let! prev := gets form in
  setForm
    match name with
    | Field.date =>
        Form.mk value (Form.description prev) (Form.category prev)
          (Form.amount prev) (Form.paymentMethod prev) (Form.type prev)
    | Field.description =>
        Form.mk (Form.date prev) value (Form.category prev)
          (Form.amount prev) (Form.paymentMethod prev) (Form.type prev)
    | Field.category =>
        Form.mk (Form.date prev) (Form.description prev) value
          (Form.amount prev) (Form.paymentMethod prev) (Form.type prev)
    | Field.amount =>
        Form.mk (Form.date prev) (Form.description prev) (Form.category prev)
          value (Form.paymentMethod prev) (Form.type prev)
    | Field.paymentMethod =>
        Form.mk (Form.date prev) (Form.description prev) (Form.category prev)
          (Form.amount prev) value (Form.type prev)
    | Field.type =>
        Form.mk (Form.date prev) (Form.description prev) (Form.category prev)
          (Form.amount prev) (Form.paymentMethod prev) value
    end.

(** [editExpense] (lines 241-253).  The spread also copies [id] into the
    form object, where nothing reads it. *)
Definition editExpense (expense : Transaction.t) : M unit :=
  try_catch
    (setForm
       (Form.mk (Some (Transaction.date expense))
          (Some (Transaction.description expense))
          (Some (Transaction.category expense))
          (Some (JS.Number_toString (Transaction.amount expense)))
          (Some (Transaction.paymentMethod expense))
          (Some (JS.or_else (Some (Transaction.type expense)) "expense")));;
     setEditingId (Some (Transaction.id expense)))
    (fun error =>
       Alert_alert "Error" "Failed to edit transaction";;
       console_error "Edit error:").

(** The values of the data model among the JSON values: the objects and
    arrays that [json_of_transaction] and [json_of_expenses] build, and the
    numbers. *)
Definition transaction_of_json (v : json) : option Transaction.t :=
  match v with
  | JObject [ (k1, JString id); (k2, JString date); (k3, JString description);
              (k4, JString category); (k5, JNumber amount);
              (k6, JString paymentMethod); (k7, JString type) ] =>
      if ((k1 =? "id") && (k2 =? "date") && (k3 =? "description")
          && (k4 =? "category") && (k5 =? "amount")
          && (k6 =? "paymentMethod") && (k7 =? "type"))%string
      then Some (Transaction.mk id date description category amount
                   paymentMethod type)
      else None
  | _ => None
  end.

Fixpoint transactions_of_json (items : list json) : option (list Transaction.t) :=
  match items with
  | [] => Some []
  | v :: rest =>
      match transaction_of_json v, transactions_of_json rest with
      | Some e, Some l => Some (e :: l)
      | _, _ => None
      end
  end.

Definition expenses_of_json (v : json) : option (list Transaction.t) :=
  match v with
  | JArray items => transactions_of_json items
  | _ => None
  end.

Definition number_of_json (v : json) : option float :=
  match v with
  | JNumber x => Some x
  | _ => None
  end.

(** [loadData] of the mount effect (lines 103-115).  The three loaded values
    go into the state as they are; the state of this model holds values of
    the data model only, so the run is followed for those ([true]) and given
    up for any other ([false]). *)
Definition loadData (JSON_parse : string -> option json) : M bool :=
  let! loadedExpenses := loadExpensesFromStorage JSON_parse in
  let! loadedBalance := loadBalanceFromStorage JSON_parse in
  let! loadedTotalIncome := loadTotalIncomeFromStorage JSON_parse in
  match expenses_of_json loadedExpenses, number_of_json loadedBalance,
        number_of_json loadedTotalIncome with
  | Some expenses, Some balance, Some totalIncome =>
      setExpenses expenses;;
      setPermanentBalance balance;;
      setPermanentTotalIncome totalIncome;;
      ret true
  | _, _, _ => ret false
  end.

(** A newly mounted component over the devices of [w]: the initial values of
    the [useState] calls (lines 88-100). *)
Definition mount (w : World) : World :=
  mkWorld Form.blank [] None 0%float 0%float (storage w) (alerts w) (console w)
    (clock w) (setItem_rejects w) (getItem_rejects w).

(** ** More specification-side definitions *)

(** The three scalars and the list the handlers keep. *)
Definition ledger (w : World) : list Transaction.t * float * float :=
  (expenses w, permanentBalance w, permanentTotalIncome w).

(** A call of one of the three save helpers. *)
Inductive save_call :=
| SaveExpenses (expenses : list Transaction.t)
| SaveBalance (balance : float)
| SaveTotalIncome (totalIncome : float).

Definition record_of (c : save_call) : record :=
  match c with
  | SaveExpenses _ => Expenses
  | SaveBalance _ => Balance
  | SaveTotalIncome _ => TotalIncome
  end.

Definition payload (c : save_call) : json :=
  match c with
  | SaveExpenses expenses => json_of_expenses expenses
  | SaveBalance balance => JNumber balance
  | SaveTotalIncome totalIncome => JNumber totalIncome
  end.

Definition failure_message (r : record) : string :=
  match r with
  | Expenses => "Failed to save expenses:"
  | Balance => "Failed to save balance:"
  | TotalIncome => "Failed to save total income:"
  end.

Definition save (JSON_stringify : json -> string) (c : save_call) : M unit :=
  match c with
  | SaveExpenses expenses => saveExpensesToStorage JSON_stringify expenses
  | SaveBalance balance => saveBalanceToStorage JSON_stringify balance
  | SaveTotalIncome totalIncome => saveTotalIncomeToStorage JSON_stringify totalIncome
  end.

(** An event of the screen: a press of the submit button, of a delete or of
    the reset button followed by the answer to the question, a change of a
    field, a press of an edit button. *)
Inductive action :=
| Submit
| Delete (id : string) (pressed : button)
| Reset (pressed : button)
| Change (name : Field.t) (value : JS.value)
| Edit (expense : Transaction.t).

Definition perform (JSON_stringify : json -> string) (a : action) : M unit :=
  match a with
  | Submit => addOrUpdateExpense JSON_stringify
  | Delete id pressed => deleteExpense JSON_stringify id pressed
  | Reset pressed => resetBalance JSON_stringify pressed
  | Change name value => handleChange name value
  | Edit expense => editExpense expense
  end.


Definition accepts_writes (w : World) : Prop :=
  forall key, setItem_rejects w key = false.
Definition rejects_writes (w : World) : Prop :=
  forall key, setItem_rejects w key = true.
Definition readable (w : World) : Prop :=
  forall key, getItem_rejects w key = false.

(** The text of [v] is not empty and reads back as [v]. *)
Definition roundtrips (JSON_stringify : json -> string)
    (JSON_parse : string -> option json) (v : json) : Prop :=
  JSON_stringify v <> "" /\ JSON_parse (JSON_stringify v) = Some v.

(** What is under [key] in a store loads as [v]: nothing is there and [v] is
    the default, or a non-empty text is there that parses to [v]. *)
Definition reads_as (JSON_parse : string -> option json) (key : string)
    (v default : json) (store : gmap string string) : Prop :=
  (store !! key = None /\ v = default)
  \/ exists text, store !! key = Some text /\ text <> ""
                  /\ JSON_parse text = Some v.

(** The store holds the ledger of [w]. *)
Definition restorable (JSON_parse : string -> option json) (w : World) : Prop :=
  reads_as JSON_parse STORAGE_KEY (json_of_expenses (expenses w)) (JArray [])
    (storage w)
  /\ reads_as JSON_parse BALANCE_KEY (JNumber (permanentBalance w)) (JNumber 0)
       (storage w)
  /\ reads_as JSON_parse TOTAL_INCOME_KEY (JNumber (permanentTotalIncome w))
       (JNumber 0) (storage w).

(** What a write of the text of [v] under the key of [r] leaves of a store,
    in a world that accepts or rejects it. *)
Definition put (JSON_stringify : json -> string) (w : World) (r : record)
    (v : json) (store : gmap string string) : gmap string string :=
  if setItem_rejects w (key_of r) then store
  else <[key_of r := JSON_stringify v]> store.

(** [w'] is [w] but for the alerts shown and the messages logged. *)
Definition same_devices (w' w : World) : Prop :=
  clock w' = clock w /\ setItem_rejects w' = setItem_rejects w
  /\ getItem_rejects w' = getItem_rejects w.

Definition ids (l : list Transaction.t) : list string := map Transaction.id l.

(** The five text fields and the type of a transaction are not empty. *)
Definition complete (e : Transaction.t) : bool :=
  negb (Transaction.id e =? "")%string
  && negb (Transaction.date e =? "")%string
  && negb (Transaction.description e =? "")%string
  && negb (Transaction.category e =? "")%string
  && negb (Transaction.paymentMethod e =? "")%string
  && negb (Transaction.type e =? "")%string.

(** A text made of decimal digits only. *)
Definition digits_only (s : string) : bool :=
  forallb (fun c => match JS.digit_of c with Some _ => true | None => false end)
    (list_ascii_of_string s).

(** A text that cannot continue a number: it is empty or starts with a
    character that is no digit, no point and no exponent mark. *)
Definition ends_number (s : string) : bool :=
  match s with
  | EmptyString => true
  | String c _ =>
      match JS.digit_of c with
      | Some _ => false
      | None => negb ((c =? ".") || (c =? "e") || (c =? "E"))%char
      end
  end.

(** ** More scenarios, with the JSON texts written out *)

(** Scenarios A and B over a store that keeps what it is given. *)
Definition ledger_kept : World :=
  after (addOrUpdateExpense JSON.stringify;;
         at_time 1700000060000;;
         fill lunch;;
         addOrUpdateExpense JSON.stringify) salary_typed.

(** The same two entries over a store that rejects every write. *)
Definition ledger_lost : World :=
  after (addOrUpdateExpense JSON.stringify;;
         at_time 1700000060000;;
         fill lunch;;
         addOrUpdateExpense JSON.stringify) salary_typed_store_down.

Definition salary_entry : Transaction.t :=
  Transaction.mk "1700000000000" "2024-01-05" "January pay" "Salary" 1000%float
    "Cash" "income".
Definition lunch_entry : Transaction.t :=
  Transaction.mk "1700000060000" "2024-01-06" "Lunch" "Food" 200%float
    "Cash" "expense".

(** A store left with [null] as the transaction list. *)
Definition null_list_stored : World :=
  mkWorld Form.blank [] None 0%float 0%float {[ STORAGE_KEY := "null" ]} [] []
    1700000000000 store_ok store_ok.

Definition not_a_number : Form.t :=
  entry "2024-01-08" "Typo" "Other" "abc" "Cash" "expense".
Definition not_a_number_typed : World :=
  after (fill not_a_number) ledger_kept.

(** ** Properties *)

(** [parseFloat] on some inputs of the amount field. *)
Example parseFloat_readings :
  JS.parseFloat "1000" = 1000%float /\
  JS.parseFloat "0.1" = 0.1%float /\
  JS.parseFloat "19.99" = 19.99%float /\
  JS.parseFloat " 12.5e-1 pesos" = 1.25%float /\
  JS.parseFloat "-5" = (-5)%float /\
  JS.parseFloat "0" = 0%float /\
  JS.parseFloat "abc" = nan /\
  JS.parseFloat "." = nan /\
  JS.parseFloat "1e400" = infinity /\
  JS.parseFloat "9007199254740993" = 9007199254740992%float.
Proof. vm_compute. repeat split. Qed.

Section Properties.

Variable JSON_stringify : json -> string.
Variable JSON_parse : string -> option json.

(** Running a handler: unfold the monad down to the world it returns. *)
Ltac run :=
  unfold deleteExpense, addOrUpdateExpense, resetBalance,
    saveExpensesToStorage, saveBalanceToStorage, saveTotalIncomeToStorage,
    Date_now_toString, try_catch, bind, gets, modify, ret, throw,
    setForm, setExpenses, setEditingId, setPermanentBalance,
    setPermanentTotalIncome, AsyncStorage_setItem, Alert_alert, console_error;
  cbn.

(** *** Deleting *)

Lemma removed_filter (i : string) (l : list Transaction.t) :
  removed i l (List.filter (fun e => negb (Transaction.id e =? i)%string) l).
Proof.
  induction l as [|e l IH]; cbn.
  - constructor.
  - destruct (String.eqb_spec (Transaction.id e) i) as [Heq|Hne]; cbn.
    + now apply removed_drop.
    + now apply removed_keep.
Qed.

Lemma filter_other_ids (i : string) (l : list Transaction.t) :
  Forall (fun e => Transaction.id e <> i)
    (List.filter (fun e => negb (Transaction.id e =? i)%string) l).
Proof.
  induction l as [|e l IH]; cbn; [constructor|].
  destruct (String.eqb_spec (Transaction.id e) i); cbn;
    [assumption | now constructor].
Qed.

Lemma filter_absent_id (i : string) (l : list Transaction.t) :
  Forall (fun e => Transaction.id e <> i) l ->
  List.filter (fun e => negb (Transaction.id e =? i)%string) l = l.
Proof.
  induction 1 as [|e l He _ IH]; cbn; [reflexivity|].
  destruct (String.eqb_spec (Transaction.id e) i); [contradiction|].
  cbn. now rewrite IH.
Qed.

(** C4. A confirmed delete of [id] leaves a sequence that holds no
    transaction with that id and is the old one without those transactions,
    order kept; balance and cumulative income are unchanged; the only record
    written is the transaction sequence: the store is either untouched (the
    write failed) or has the new sequence under ["expenses"], and every other
    key keeps its content. *)
Theorem deleteExpense_removes_only_from_list (id : string) (w : World) :
  let w' := snd (deleteExpense JSON_stringify id Destructive w) in
  Forall (fun e => Transaction.id e <> id) (expenses w') /\
  removed id (expenses w) (expenses w') /\
  permanentBalance w' = permanentBalance w /\
  permanentTotalIncome w' = permanentTotalIncome w /\
  storage w' =
    (if setItem_rejects w STORAGE_KEY then storage w
     else <[STORAGE_KEY := JSON_stringify (json_of_expenses (expenses w'))]> (storage w)) /\
  (forall key : string, key <> STORAGE_KEY -> storage w' !! key = storage w !! key).
Proof.
  run. destruct (setItem_rejects w STORAGE_KEY); cbn;
    (split; [apply filter_other_ids|]);
    (split; [apply removed_filter|]);
    repeat split; try reflexivity.
  intros key Hkey. now rewrite lookup_insert_ne.
Qed.

(** C5. Deleting an id that no transaction of the sequence has leaves the
    sequence as it was, and the handler still ends normally with the
    "Success" alert. *)
Theorem deleteExpense_absent_id_is_success (id : string) (w : World) :
  Forall (fun e => Transaction.id e <> id) (expenses w) ->
  let r := deleteExpense JSON_stringify id Destructive w in
  fst r = Normal tt /\
  expenses (snd r) = expenses w /\
  alerts (snd r) =
    alerts w
    ++ [("Delete Transaction",
         "Are you sure you want to delete this transaction? The balance will remain unchanged.");
        ("Success", "Transaction deleted from history")].
Proof.
  intros Habsent. run.
  destruct (setItem_rejects w STORAGE_KEY); cbn;
    rewrite (filter_absent_id _ _ Habsent), <- app_assoc; auto.
Qed.

(** *** Resetting the balance *)

(** C6. A confirmed reset sets the balance to 0 whatever it was, leaves the
    transaction sequence and the cumulative income as they were, and writes
    only the balance record: the store is either untouched (the write
    failed) or has 0 under ["permanentBalance"], and every other key keeps
    its content. *)
Theorem resetBalance_zeroes_balance_only (w : World) :
  let w' := snd (resetBalance JSON_stringify Destructive w) in
  permanentBalance w' = 0%float /\
  expenses w' = expenses w /\
  permanentTotalIncome w' = permanentTotalIncome w /\
  storage w' =
    (if setItem_rejects w BALANCE_KEY then storage w
     else <[BALANCE_KEY := JSON_stringify (JNumber 0)]> (storage w)) /\
  (forall key : string, key <> BALANCE_KEY -> storage w' !! key = storage w !! key).
Proof.
  run. destruct (setItem_rejects w BALANCE_KEY); cbn; repeat split; try reflexivity.
  intros key Hkey. now rewrite lookup_insert_ne.
Qed.

(** The "Cancel" button of either confirmation changes nothing but the
    alert shown. *)
Lemma cancel_changes_nothing (id : string) (w : World) :
  let wd := snd (deleteExpense JSON_stringify id Cancel w) in
  let wr := snd (resetBalance JSON_stringify Cancel w) in
  (expenses wd, permanentBalance wd, permanentTotalIncome wd, storage wd)
    = (expenses w, permanentBalance w, permanentTotalIncome w, storage w) /\
  (expenses wr, permanentBalance wr, permanentTotalIncome wr, storage wr)
    = (expenses w, permanentBalance w, permanentTotalIncome w, storage w).
Proof. run. split; reflexivity. Qed.

(** *** Adding and updating *)

Lemma missing_field_iff (f : Form.t) :
  negb (JS.truthy (Form.date f)) || negb (JS.truthy (Form.description f))
  || negb (JS.truthy (Form.category f)) || negb (JS.truthy (Form.amount f))
  || negb (JS.truthy (Form.paymentMethod f)) = negb (all_filled f).
Proof.
  unfold all_filled.
  destruct (JS.truthy (Form.date f)), (JS.truthy (Form.description f)),
    (JS.truthy (Form.category f)), (JS.truthy (Form.amount f)),
    (JS.truthy (Form.paymentMethod f)); reflexivity.
Qed.

(** What the handler leaves behind once the form has passed the check of
    line 168, whatever the three writes do. *)
Lemma addOrUpdateExpense_accepted (w : World) :
  all_filled (form w) = true ->
  let r := addOrUpdateExpense JSON_stringify w in
  let amount := JS.parseFloat (JS.or_else (Form.amount (form w)) "") in
  let income := JS.strict_eq (Form.type (form w)) "income" in
  fst r = Normal tt /\
  expenses (snd r) =
    (if JS.truthy (editingId w)
     then map (fun e => if JS.strict_eq (editingId w) (Transaction.id e)
                        then expense_of (JS.or_else (editingId w) "") (form w)
                        else e) (expenses w)
     else expenses w ++ [expense_of (pretty (clock w)) (form w)]) /\
  permanentBalance (snd r) =
    (if income then permanentBalance w + amount else permanentBalance w - amount)%float /\
  permanentTotalIncome (snd r) =
    (if income then permanentTotalIncome w + amount else permanentTotalIncome w)%float /\
  form (snd r) = Form.blank /\
  editingId (snd r) = None /\
  alerts (snd r) =
    alerts w
    ++ [("Success",
         String.append (if income then "Income" else "Expense")
           (if JS.truthy (editingId w) then " updated" else " added"))].
Proof.
  intros Hvalid. run. rewrite missing_field_iff, Hvalid. cbn.
  destruct (JS.truthy (editingId w)); cbn;
    destruct (setItem_rejects w STORAGE_KEY); cbn;
    destruct (setItem_rejects w BALANCE_KEY); cbn;
    destruct (setItem_rejects w TOTAL_INCOME_KEY); cbn;
    repeat split.
Qed.

(** C1. A valid add with no [editingId] ends normally, appends to the end of
    the sequence the transaction built from the form, whose id is the decimal
    rendering of the clock reading taken during the call, and changes the
    scalars by the parsed amount: for type income both balance and cumulative
    income grow by it, otherwise the balance shrinks by it and the cumulative
    income stays. *)
Theorem addOrUpdateExpense_create (w : World) :
  all_filled (form w) = true ->
  JS.truthy (editingId w) = false ->
  let r := addOrUpdateExpense JSON_stringify w in
  let amount := JS.parseFloat (JS.or_else (Form.amount (form w)) "") in
  fst r = Normal tt /\
  expenses (snd r) = expenses w ++ [expense_of (pretty (clock w)) (form w)] /\
  (if JS.strict_eq (Form.type (form w)) "income"
   then permanentBalance (snd r) = (permanentBalance w + amount)%float /\
        permanentTotalIncome (snd r) = (permanentTotalIncome w + amount)%float
   else permanentBalance (snd r) = (permanentBalance w - amount)%float /\
        permanentTotalIncome (snd r) = permanentTotalIncome w).
Proof.
  intros Hvalid Hnew.
  destruct (addOrUpdateExpense_accepted w Hvalid) as (Hret & Hl & Hb & Hi & _).
  rewrite Hnew in Hl. cbn zeta. rewrite Hret, Hl, Hb, Hi.
  destruct (JS.strict_eq (Form.type (form w)) "income"); auto.
Qed.

(** The id of a new transaction is not yet in the sequence when every id
    there is the rendering of another clock reading. *)
Lemma fresh_id_not_in_list (w : World) :
  Forall (fun e => exists t : Z, t <> clock w /\ Transaction.id e = pretty t)
    (expenses w) ->
  Forall (fun e => Transaction.id e <> pretty (clock w)) (expenses w).
Proof.
  intros H. eapply Forall_impl; [exact H|].
  intros e (t & Hne & Hid) Heq.
  rewrite Hid in Heq. apply Hne. now apply (inj pretty).
Qed.

Lemma lookup_map_replace (p : Transaction.t -> bool) (new : Transaction.t)
    (l : list Transaction.t) (i : nat) (e : Transaction.t) :
  l !! i = Some e ->
  map (fun e => if p e then new else e) l !! i = Some (if p e then new else e).
Proof.
  revert i. induction l as [|x l IH]; intros [|i] H; cbn in *; try discriminate.
  - now inversion H.
  - now apply IH.
Qed.

(** C2. A valid update, with [editingId] naming a transaction of the
    sequence, ends normally and keeps the length of the sequence; every
    position that held a transaction with that id now holds the transaction
    built from the form under the same id, every other position holds what it
    held, and at least one position was replaced.  The scalars move by the
    full new amount exactly as for an add: nothing of the replaced
    transaction is taken back first. *)
Theorem addOrUpdateExpense_update (w : World) (eid : string) :
  all_filled (form w) = true ->
  editingId w = Some eid ->
  eid <> "" ->
  In eid (map Transaction.id (expenses w)) ->
  let r := addOrUpdateExpense JSON_stringify w in
  let amount := JS.parseFloat (JS.or_else (Form.amount (form w)) "") in
  let new := expense_of eid (form w) in
  fst r = Normal tt /\
  length (expenses (snd r)) = length (expenses w) /\
  (forall i e, expenses w !! i = Some e -> Transaction.id e = eid ->
     expenses (snd r) !! i = Some new) /\
  (forall i e, expenses w !! i = Some e -> Transaction.id e <> eid ->
     expenses (snd r) !! i = Some e) /\
  (exists i e, expenses w !! i = Some e /\ Transaction.id e = eid /\
     expenses (snd r) !! i = Some new) /\
  (if JS.strict_eq (Form.type (form w)) "income"
   then permanentBalance (snd r) = (permanentBalance w + amount)%float /\
        permanentTotalIncome (snd r) = (permanentTotalIncome w + amount)%float
   else permanentBalance (snd r) = (permanentBalance w - amount)%float /\
        permanentTotalIncome (snd r) = permanentTotalIncome w).
Proof.
  intros Hvalid Hedit Hne Hin.
  destruct (addOrUpdateExpense_accepted w Hvalid) as (Hret & Hl & Hb & Hi & _).
  assert (Htruthy : JS.truthy (editingId w) = true).
  { rewrite Hedit. cbn. now destruct (String.eqb_spec eid ""). }
  assert (Hor : JS.or_else (Some eid) "" = eid).
  { cbn. now destruct (String.eqb_spec eid ""). }
  rewrite Htruthy, Hedit, Hor in Hl. unfold JS.strict_eq in Hl.
  assert (Hat : forall i e, expenses w !! i = Some e ->
            expenses (snd (addOrUpdateExpense JSON_stringify w)) !! i
            = Some (if (eid =? Transaction.id e)%string
                    then expense_of eid (form w) else e)).
  { intros i e Hie. rewrite Hl.
    apply (lookup_map_replace (fun e => (eid =? Transaction.id e)%string)).
    exact Hie. }
  cbn zeta. rewrite Hret, Hb, Hi.
  split; [reflexivity|].
  split; [rewrite Hl; apply length_map|].
  split.
  { intros i e Hie Hid. rewrite (Hat i e Hie), <- Hid, String.eqb_refl. reflexivity. }
  split.
  { intros i e Hie Hid. rewrite (Hat i e Hie).
    destruct (String.eqb_spec eid (Transaction.id e)); [congruence | reflexivity]. }
  split.
  { apply in_map_iff in Hin as (e & Hid & He).
    apply list_elem_of_In, list_elem_of_lookup in He as (i & Hie).
    exists i, e. repeat split; try assumption.
    rewrite (Hat i e Hie), Hid, String.eqb_refl. reflexivity. }
  destruct (JS.strict_eq (Form.type (form w)) "income"); auto.
Qed.

(** A form with a missing field: nothing but the alert. *)
Lemma addOrUpdateExpense_rejected (w : World) :
  all_filled (form w) = false ->
  addOrUpdateExpense JSON_stringify w
  = Alert_alert "Error" "Please fill in all fields." w.
Proof.
  intros Hmissing. unfold addOrUpdateExpense, bind, gets. cbn.
  now rewrite missing_field_iff, Hmissing.
Qed.

(** C3 (as the code has it). Whenever one of date, description, category,
    amount and paymentMethod is missing or empty, the handler stops at the
    "Please fill in all fields." alert and leaves the transaction sequence,
    the balance, the cumulative income, the form, the edit target and the
    store as they were.  That is the only check: a form with the five fields
    filled is accepted whatever its amount parses to. *)
Theorem addOrUpdateExpense_validation (w : World) :
  let r := addOrUpdateExpense JSON_stringify w in
  (all_filled (form w) = false ->
     fst r = Normal tt /\
     expenses (snd r) = expenses w /\
     permanentBalance (snd r) = permanentBalance w /\
     permanentTotalIncome (snd r) = permanentTotalIncome w /\
     form (snd r) = form w /\
     editingId (snd r) = editingId w /\
     storage (snd r) = storage w /\
     alerts (snd r) = alerts w ++ [("Error", "Please fill in all fields.")]) /\
  (all_filled (form w) = true ->
     exists message,
       alerts (snd r) = alerts w ++ [("Success", message)] /\
       permanentBalance (snd r) =
         (if JS.strict_eq (Form.type (form w)) "income"
          then permanentBalance w + JS.parseFloat (JS.or_else (Form.amount (form w)) "")
          else permanentBalance w - JS.parseFloat (JS.or_else (Form.amount (form w)) ""))%float).
Proof.
  split.
  - intros Hmissing. rewrite (addOrUpdateExpense_rejected w Hmissing).
    cbn. repeat split.
  - intros Hvalid.
    destruct (addOrUpdateExpense_accepted w Hvalid)
      as (_ & _ & Hb & _ & _ & _ & Ha).
    eexists. split; [exact Ha | exact Hb].
Qed.

(** *** Loading *)

(** C8. Each of the three loads ends normally on every world, never with a
    thrown error, and leaves the store alone; when the stored value is absent
    or unreadable the value returned is the documented default of the
    record: the empty array for the transaction list, 0 for the balance and
    for the cumulative income. *)
Theorem load_never_raises (r : record) (w : World) :
  exists v w',
    load JSON_parse r w = (Normal v, w') /\
    storage w' = storage w /\
    (absent_or_unreadable JSON_parse (key_of r) w -> v = default_of r).
Proof.
  destruct r; unfold load, loadExpensesFromStorage, loadBalanceFromStorage,
    loadTotalIncomeFromStorage, absent_or_unreadable, JSON_parse_or_throw,
    try_catch, bind, ret, throw, AsyncStorage_getItem, console_error, modify;
    cbn -[lookup];
    (destruct (getItem_rejects w _); cbn -[lookup];
       [do 2 eexists; repeat split|]);
    (destruct (storage w !! _) as [text|] eqn:Hstored; cbn -[lookup];
       [|do 2 eexists; repeat split]);
    (destruct (String.eqb_spec text ""); cbn -[lookup];
       [do 2 eexists; repeat split|]);
    (destruct (JSON_parse text) as [v|] eqn:Hparse; cbn -[lookup];
       do 2 eexists; (split; [reflexivity|]); (split; [reflexivity|]));
    try reflexivity;
    intros [H|[H|[H|(text' & H & Hfail)]]]; try congruence.
Qed.

(** *** Derived totals *)

Lemma fold_filter_sum_where (p : Transaction.t -> bool) (l : list Transaction.t)
    (acc : float) :
  fold_left (fun sum e => (sum + Transaction.amount e)%float) (List.filter p l) acc
  = sum_where p l acc.
Proof.
  revert acc. induction l as [|e l IH]; intros acc; cbn; [reflexivity|].
  destruct (p e); cbn; apply IH.
Qed.

Lemma fold_all_sum_where (l : list Transaction.t) (acc : float) :
  fold_left (fun sum e => (sum + Transaction.amount e)%float) l acc
  = sum_where (fun _ => true) l acc.
Proof.
  revert acc. induction l as [|e l IH]; intros acc; cbn; [reflexivity | apply IH].
Qed.

(** The sum grows at the end of the list. *)
Lemma sum_where_snoc (p : Transaction.t -> bool) (l : list Transaction.t)
    (e : Transaction.t) (acc : float) :
  sum_where p (l ++ [e]) acc
  = (if p e then sum_where p l acc + Transaction.amount e else sum_where p l acc)%float.
Proof.
  revert acc. induction l as [|x l IH]; intros acc; cbn; [reflexivity | apply IH].
Qed.

(** C9. The three totals depend on the transaction list alone: [totalIncome]
    is the sum of the amounts of the transactions of type income,
    [totalExpenses] that of the transactions of type expense, and
    [totalAmount] that of all of them, each added up in list order from 0. *)
Theorem derived_totals_are_sums (l : list Transaction.t) :
  totalIncome l = sum_where is_income l 0%float /\
  totalExpenses l = sum_where is_expense l 0%float /\
  totalAmount l = sum_where (fun _ => true) l 0%float.
Proof.
  unfold totalIncome, totalExpenses, totalAmount.
  repeat split.
  - apply fold_filter_sum_where.
  - apply fold_filter_sum_where.
  - apply fold_all_sum_where.
Qed.

(** *** Types written and the split of the totals *)






End Properties.

(** ** The properties at work on the scenarios *)

(** Scenarios A and B: income 1000, then expense 200. *)
Example scenario_A_B :
  let a := after (addOrUpdateExpense placeholder_stringify) salary_typed in
  (permanentBalance a, permanentTotalIncome a) = (1000, 1000)%float /\
  (permanentBalance salary_and_lunch, permanentTotalIncome salary_and_lunch)
    = (800, 1000)%float /\
  map Transaction.id (expenses salary_and_lunch)
    = ["1700000000000"; "1700000060000"].
Proof. vm_compute. repeat split. Qed.

(** Scenario C: deleting the lunch keeps the balance at 800. *)
Example scenario_C :
  let c := after (deleteExpense placeholder_stringify "1700000060000" Destructive)
             salary_and_lunch in
  permanentBalance c = 800%float /\
  map Transaction.id (expenses c) = ["1700000000000"].
Proof. vm_compute. repeat split. Qed.

(** Scenario D: editing the salary from 1000 to 1500 adds 1500 on top. *)
Example scenario_D :
  let d := after (addOrUpdateExpense placeholder_stringify) raise_typed in
  (permanentBalance d, permanentTotalIncome d) = (2300, 2500)%float /\
  map (fun e => (Transaction.id e, Transaction.amount e)) (expenses d)
    = [("1700000000000", 1500%float); ("1700000060000", 200%float)].
Proof. vm_compute. repeat split. Qed.

(** Scenario E: reset. *)
Example scenario_E :
  let e := after (resetBalance placeholder_stringify Destructive) salary_and_lunch in
  permanentBalance e = 0%float /\
  permanentTotalIncome e = 1000%float /\
  expenses e = expenses salary_and_lunch.
Proof. vm_compute. repeat split. Qed.

(** Scenario F: a missing description. *)
Example scenario_F :
  let f := after (addOrUpdateExpense placeholder_stringify) no_description_typed in
  alerts f = alerts no_description_typed ++ [("Error", "Please fill in all fields.")] /\
  expenses f = expenses no_description_typed /\
  permanentBalance f = 800%float.
Proof. vm_compute. repeat split. Qed.

Lemma addOrUpdateExpense_create_witness :
  all_filled (form salary_typed) = true /\
  JS.truthy (editingId salary_typed) = false /\
  expenses (snd (addOrUpdateExpense placeholder_stringify salary_typed))
  = expenses salary_typed ++ [expense_of (pretty (clock salary_typed)) (form salary_typed)].
Proof.
  split; [reflexivity|]. split; [reflexivity|].
  exact (proj1 (proj2 (addOrUpdateExpense_create placeholder_stringify
                         salary_typed eq_refl eq_refl))).
Defined.

Lemma addOrUpdateExpense_update_witness :
  length (expenses (snd (addOrUpdateExpense placeholder_stringify raise_typed)))
  = length (expenses raise_typed).
Proof.
  refine (proj1 (proj2 (addOrUpdateExpense_update placeholder_stringify
                          raise_typed "1700000000000" eq_refl eq_refl _ _))).
  - discriminate.
  - vm_compute. left. reflexivity.
Defined.

Lemma addOrUpdateExpense_validation_witness :
  all_filled (form no_description_typed) = false /\
  expenses (snd (addOrUpdateExpense placeholder_stringify no_description_typed))
  = expenses no_description_typed.
Proof.
  split; [reflexivity|].
  exact (proj1 (proj2 (proj1 (addOrUpdateExpense_validation placeholder_stringify
                                no_description_typed) eq_refl))).
Defined.

(** The amount "0" does not parse to a positive number, yet the form passes:
    the transaction is appended and "Success" is shown. *)
Lemma zero_amount_is_accepted :
  let w := zero_amount_typed in
  let w' := after (addOrUpdateExpense placeholder_stringify) w in
  Form.amount (form w) = Some "0" /\
  JS.finite_positive (JS.parseFloat "0") = false /\
  expenses w = [] /\
  expenses w'
  = [Transaction.mk "1700000000000" "2024-01-07" "Nothing" "Other" 0%float
       "Cash" "expense"] /\
  alerts w' = [("Success", "Expense added")].
Proof. vm_compute. repeat split. Qed.

Lemma deleteExpense_absent_id_witness :
  expenses (snd (deleteExpense placeholder_stringify "42" Destructive salary_and_lunch))
  = expenses salary_and_lunch.
Proof.
  refine (proj1 (proj2 (deleteExpense_absent_id_is_success placeholder_stringify
                          "42" salary_and_lunch _))).
  vm_compute. repeat constructor; discriminate.
Defined.

(** C7 (where the code falls short of it). With the salary form filled in
    and a store that rejects every write, the handler logs the three failed
    saves, writes nothing, and all the same appends the transaction, raises
    balance and cumulative income to 1000 and reports "Success": the
    in-memory state has changed although nothing was persisted, and the
    caller is told neither of a validation nor of a storage failure. *)
Theorem addOrUpdateExpense_store_down :
  let w := salary_typed_store_down in
  let w' := after (addOrUpdateExpense placeholder_stringify) w in
  all_filled (form w) = true /\
  storage w' = storage w /\
  console w'
  = ["Failed to save expenses:"; "Failed to save balance:";
     "Failed to save total income:"] /\
  (expenses w, permanentBalance w, permanentTotalIncome w) = ([], 0, 0)%float /\
  (expenses w', permanentBalance w', permanentTotalIncome w')
  = ([Transaction.mk "1700000000000" "2024-01-05" "January pay" "Salary"
        1000%float "Cash" "income"], 1000, 1000)%float /\
  alerts w' = [("Success", "Income added")].
Proof. vm_compute. repeat split. Qed.

Lemma load_never_raises_witness :
  exists w',
    load no_parse Expenses (initial_world 1700000000000 store_ok)
    = (Normal (JArray []), w').
Proof.
  destruct (load_never_raises no_parse Expenses (initial_world 1700000000000 store_ok))
    as (v & w' & Hload & _ & Hdefault).
  exists w'. rewrite Hload.
  rewrite (Hdefault (or_intror (or_introl eq_refl))). reflexivity.
Defined.




(** ** Further properties: the storage helpers *)

Section Storage.

Variable JSON_stringify : json -> string.
Variable JSON_parse : string -> option json.

Ltac unfold_storage :=
  unfold save, load, saveExpensesToStorage, saveBalanceToStorage,
    saveTotalIncomeToStorage, loadExpensesFromStorage, loadBalanceFromStorage,
    loadTotalIncomeFromStorage, JSON_parse_or_throw, try_catch, bind, ret,
    throw, AsyncStorage_setItem, AsyncStorage_getItem, console_error, modify.

(** What a save helper returns, in one equation. *)
Lemma save_run (c : save_call) (w : World) :
  save JSON_stringify c w
  = (Normal tt,
     if setItem_rejects w (key_of (record_of c))
     then mkWorld (form w) (expenses w) (editingId w) (permanentBalance w)
            (permanentTotalIncome w) (storage w) (alerts w)
            (console w ++ [failure_message (record_of c)]) (clock w)
            (setItem_rejects w) (getItem_rejects w)
     else mkWorld (form w) (expenses w) (editingId w) (permanentBalance w)
            (permanentTotalIncome w)
            (<[key_of (record_of c) := JSON_stringify (payload c)]> (storage w))
            (alerts w) (console w) (clock w) (setItem_rejects w)
            (getItem_rejects w)).
Proof.
  destruct c; unfold_storage; cbn -[insert];
    destruct (setItem_rejects w _); reflexivity.
Qed.

(** What a load helper returns depends on the store and on the reads that
    reject, and on nothing else of the world. *)
Lemma load_result_from_store (r : record) (w1 w2 : World) :
  storage w1 = storage w2 ->
  getItem_rejects w1 (key_of r) = getItem_rejects w2 (key_of r) ->
  fst (load JSON_parse r w1) = fst (load JSON_parse r w2).
Proof.
  intros Hstore Hreads.
  destruct r; unfold_storage; cbn -[lookup] in *; rewrite Hstore, Hreads;
    destruct (getItem_rejects w2 _); cbn -[lookup]; try reflexivity;
    destruct (storage w2 !! _) as [text|]; cbn; try reflexivity;
    destruct (String.eqb text ""); cbn; try reflexivity;
    destruct (JSON_parse text); reflexivity.
Qed.

Lemma load_present (r : record) (w : World) (text : string) (v : json) :
  getItem_rejects w (key_of r) = false ->
  storage w !! key_of r = Some text ->
  text <> "" ->
  JSON_parse text = Some v ->
  load JSON_parse r w = (Normal v, w).
Proof.
  intros Hread Hstored Htext Hparse.
  destruct r; unfold_storage; cbn -[lookup] in *;
    rewrite Hread; cbn -[lookup]; rewrite Hstored; cbn;
    destruct (String.eqb_spec text ""); try contradiction; cbn;
    rewrite Hparse; reflexivity.
Qed.

Lemma keys_distinct (r1 r2 : record) : r1 <> r2 -> key_of r1 <> key_of r2.
Proof. destruct r1, r2; intros H; try contradiction; discriminate. Qed.

(** X1. A save helper never throws and never touches the component state
    or the alerts.  When the write is accepted the store gets the text of the
    value under the helper's own key and nothing is logged; when it is
    rejected the store is left as it was and one message is logged. *)
Theorem save_logs_and_returns (c : save_call) (w : World) :
  let r := save JSON_stringify c w in
  let key := key_of (record_of c) in
  fst r = Normal tt /\
  ledger (snd r) = ledger w /\
  (form (snd r), editingId (snd r), alerts (snd r)) = (form w, editingId w, alerts w) /\
  storage (snd r) =
    (if setItem_rejects w key then storage w
     else <[key := JSON_stringify (payload c)]> (storage w)) /\
  console (snd r) =
    (if setItem_rejects w key then console w ++ [failure_message (record_of c)]
     else console w).
Proof.
  cbn zeta. rewrite save_run. cbn -[insert].
  destruct (setItem_rejects w (key_of (record_of c))); repeat split.
Qed.

(** X2. Saving a value and then loading its record gives the value back,
    when neither call is rejected by the store and the JSON text of the
    value is not empty and parses back to it; what the store held before
    does not matter. *)
Theorem save_then_load (c : save_call) (w : World) :
  setItem_rejects w (key_of (record_of c)) = false ->
  getItem_rejects w (key_of (record_of c)) = false ->
  roundtrips JSON_stringify JSON_parse (payload c) ->
  fst ((save JSON_stringify c;; load JSON_parse (record_of c)) w)
  = Normal (payload c).
Proof.
  intros Hwrite Hread [Htext Hparse].
  unfold bind. rewrite save_run, Hwrite.
  erewrite load_present; try reflexivity; try eassumption.
  cbn -[insert lookup]. apply lookup_insert_eq.
Qed.

(** X3. A save does not change what a load returns when its write is
    rejected, or when the load is for another record. *)
Theorem save_leaves_loads_alone (c : save_call) (r : record) (w : World) :
  setItem_rejects w (key_of (record_of c)) = true \/ r <> record_of c ->
  fst ((save JSON_stringify c;; load JSON_parse r) w) = fst (load JSON_parse r w).
Proof.
  intros Hcase. unfold bind. rewrite save_run.
  destruct (setItem_rejects w (key_of (record_of c))) eqn:Hwrite.
  - apply load_result_from_store; reflexivity.
  - destruct Hcase as [Hrejected|Hother]; [discriminate|].
    assert (Hkeys : key_of (record_of c) <> key_of r).
    { apply keys_distinct. congruence. }
    destruct r; unfold_storage; cbn -[lookup insert] in *;
      rewrite (lookup_insert_ne _ _ _ _ Hkeys); 
      destruct (getItem_rejects w _); cbn -[lookup]; try reflexivity;
      destruct (storage w !! _) as [text|]; cbn; try reflexivity;
      destruct (String.eqb text ""); cbn; try reflexivity;
      destruct (JSON_parse text); reflexivity.
Qed.

(** X4. A load hands back whatever the stored text parses to, of whatever
    shape, and logs nothing: the default is used only when the text is
    absent, empty or unreadable. *)
Theorem load_returns_what_is_stored (r : record) (w : World) (text : string)
    (v : json) :
  getItem_rejects w (key_of r) = false ->
  storage w !! key_of r = Some text ->
  text <> "" ->
  JSON_parse text = Some v ->
  load JSON_parse r w = (Normal v, w).
Proof. apply load_present. Qed.

(** X5. The saves of two different records can be made in either order: the
    store and the component state end up the same, and the same messages are
    logged. *)
Theorem saves_commute (c1 c2 : save_call) (w : World) :
  record_of c1 <> record_of c2 ->
  let w12 := snd ((save JSON_stringify c1;; save JSON_stringify c2) w) in
  let w21 := snd ((save JSON_stringify c2;; save JSON_stringify c1) w) in
  storage w12 = storage w21 /\
  ledger w12 = ledger w21 /\
  alerts w12 = alerts w21 /\
  Permutation (console w12) (console w21).
Proof.
  intros Hrecords.
  assert (Hkeys : key_of (record_of c1) <> key_of (record_of c2))
    by now apply keys_distinct.
  cbn zeta. unfold bind. rewrite !save_run.
  destruct (setItem_rejects w (key_of (record_of c1))) eqn:H1;
    destruct (setItem_rejects w (key_of (record_of c2))) eqn:H2;
    cbn -[insert]; rewrite ?save_run; cbn -[insert]; rewrite ?H1, ?H2;
    cbn -[insert]; repeat split; try reflexivity.
  - rewrite <- !app_assoc. apply Permutation_app_head. apply perm_swap.
  - apply insert_insert_ne. congruence.
Qed.

End Storage.

(** ** Further properties: the handlers *)

Section Handlers.

Variable JSON_stringify : json -> string.

Ltac run :=
  unfold perform, deleteExpense, addOrUpdateExpense, resetBalance,
    handleChange, editExpense,
    saveExpensesToStorage, saveBalanceToStorage, saveTotalIncomeToStorage,
    Date_now_toString, try_catch, bind, gets, modify, ret, throw,
    setForm, setExpenses, setEditingId, setPermanentBalance,
    setPermanentTotalIncome, AsyncStorage_setItem, Alert_alert, console_error;
  cbn -[insert].

Ltac writes w :=
  destruct (setItem_rejects w STORAGE_KEY); cbn -[insert];
  destruct (setItem_rejects w BALANCE_KEY); cbn -[insert];
  destruct (setItem_rejects w TOTAL_INCOME_KEY); cbn -[insert].

Ltac split_ifs :=
  repeat match goal with
         | |- context [if ?b then _ else _] => destruct b; cbn -[insert]
         end.




(** No event changes the clock or what the store accepts. *)
Lemma perform_devices (a : action) (w : World) :
  same_devices (after (perform JSON_stringify a) w) w.
Proof.
  unfold same_devices, after.
  destruct a as [|id [|]|[|]|name value|expense]; run;
    rewrite ?missing_field_iff; try destruct name; split_ifs; repeat split.
Qed.

(** The store after an event: the three writes of an accepted submit, the
    one write of a confirmed delete or reset, none otherwise. *)
Lemma perform_storage (a : action) (w : World) :
  let w' := after (perform JSON_stringify a) w in
  storage w' =
    match a with
    | Submit =>
        if all_filled (form w)
        then put JSON_stringify w TotalIncome (JNumber (permanentTotalIncome w'))
               (put JSON_stringify w Balance (JNumber (permanentBalance w'))
                  (put JSON_stringify w Expenses (json_of_expenses (expenses w'))
                     (storage w)))
        else storage w
    | Delete _ Destructive =>
        put JSON_stringify w Expenses (json_of_expenses (expenses w')) (storage w)
    | Reset Destructive =>
        put JSON_stringify w Balance (JNumber (permanentBalance w')) (storage w)
    | _ => storage w
    end.
Proof.
  unfold after, put.
  destruct a as [|id [|]|[|]|name value|expense]; run;
    rewrite ?missing_field_iff; try destruct name; try reflexivity.
  - destruct (all_filled (form w)); cbn -[insert]; [|reflexivity].
    destruct (JS.truthy (editingId w)); cbn -[insert]; writes w; reflexivity.
  - destruct (setItem_rejects w STORAGE_KEY); reflexivity.
  - destruct (setItem_rejects w BALANCE_KEY); reflexivity.
Qed.

Lemma perform_normal (a : action) (w : World) :
  fst (perform JSON_stringify a w) = Normal tt.
Proof.
  destruct a as [|id [|]|[|]|name value|expense]; run;
    rewrite ?missing_field_iff; try destruct name; split_ifs; reflexivity.
Qed.

(** Events in a row: the next one starts where the last one ended. *)
Lemma after_event (a : action) (k : M unit) (w : World) :
  after (perform JSON_stringify a;; k) w
  = after k (after (perform JSON_stringify a) w).
Proof.
  unfold after, bind. pose proof (perform_normal a w) as Hnormal.
  destruct (perform JSON_stringify a w) as [o w']. cbn in Hnormal.
  now rewrite Hnormal.
Qed.


(** The list and the scalars after a confirmed delete. *)
Lemma deleteExpense_ledger (id : string) (w : World) :
  let w' := after (perform JSON_stringify (Delete id Destructive)) w in
  expenses w'
  = List.filter (fun e => negb (Transaction.id e =? id)%string) (expenses w)
  /\ permanentBalance w' = permanentBalance w
  /\ permanentTotalIncome w' = permanentTotalIncome w.
Proof. unfold after. run. split_ifs; repeat split. Qed.

(** Nothing but a submit, a confirmed delete or a confirmed reset changes
    the ledger, and nothing but a submit, a change or an edit the form. *)
Lemma perform_frame (a : action) (w : World) :
  let w' := after (perform JSON_stringify a) w in
  match a with
  | Submit => True
  | Delete _ _ =>
      permanentBalance w' = permanentBalance w
      /\ permanentTotalIncome w' = permanentTotalIncome w
      /\ form w' = form w /\ editingId w' = editingId w
  | Reset _ =>
      expenses w' = expenses w
      /\ permanentTotalIncome w' = permanentTotalIncome w
      /\ form w' = form w /\ editingId w' = editingId w
  | Change _ _ =>
      expenses w' = expenses w
      /\ permanentBalance w' = permanentBalance w
      /\ permanentTotalIncome w' = permanentTotalIncome w
      /\ editingId w' = editingId w
  | Edit _ =>
      expenses w' = expenses w
      /\ permanentBalance w' = permanentBalance w
      /\ permanentTotalIncome w' = permanentTotalIncome w
  end.
Proof.
  unfold after.
  destruct a as [|id [|]|[|]|name value|expense]; run;
    try destruct name; split_ifs; repeat split.
Qed.

(** X7. A second press of the submit button right after an accepted one
    adds nothing: the accepted submit has blanked the form and dropped the
    edit target, so the second one stops at the "Please fill in all fields."
    alert with the ledger and the store as the first left them. *)
Theorem submit_twice_adds_once (w : World) :
  all_filled (form w) = true ->
  let w1 := after (perform JSON_stringify Submit) w in
  let w2 := after (perform JSON_stringify Submit) w1 in
  form w1 = Form.blank /\
  editingId w1 = None /\
  ledger w2 = ledger w1 /\
  storage w2 = storage w1 /\
  alerts w2 = alerts w1 ++ [("Error", "Please fill in all fields.")].
Proof.
  intros Hvalid.
  destruct (addOrUpdateExpense_accepted JSON_stringify w Hvalid)
    as (_ & _ & _ & _ & Hform & Hedit & _).
  cbn zeta. unfold after. cbn [perform].
  set (w1 := snd (addOrUpdateExpense JSON_stringify w)) in *.
  assert (Hblank : all_filled (form w1) = false) by now rewrite Hform.
  rewrite (addOrUpdateExpense_rejected JSON_stringify w1 Hblank).
  repeat split; assumption.
Qed.

Lemma or_else_filled (s d : string) : s <> "" -> JS.or_else (Some s) d = s.
Proof. intros H. cbn. now destruct (String.eqb_spec s ""). Qed.

Lemma truthy_filled (s : string) : JS.truthy (Some s) = negb (s =? "")%string.
Proof. reflexivity. Qed.

Lemma truthy_some (v : JS.value) :
  JS.truthy v = true -> exists s, v = Some s /\ s <> "".
Proof.
  destruct v as [s|]; cbn; [|discriminate].
  destruct (String.eqb_spec s ""); [discriminate|]. eauto.
Qed.

Lemma map_replace_ids (eid : string) (new : Transaction.t)
    (l : list Transaction.t) :
  Transaction.id new = eid ->
  ids (map (fun e => if (eid =? Transaction.id e)%string then new else e) l)
  = ids l.
Proof.
  intros Hid. unfold ids. rewrite map_map. apply map_ext. intros e.
  destruct (String.eqb_spec eid (Transaction.id e)); [congruence | reflexivity].
Qed.

(** The ids of the list after an accepted update. *)
Lemma update_ids (w : World) :
  all_filled (form w) = true ->
  JS.truthy (editingId w) = true ->
  ids (expenses (snd (addOrUpdateExpense JSON_stringify w))) = ids (expenses w).
Proof.
  intros Hvalid Hedit.
  destruct (addOrUpdateExpense_accepted JSON_stringify w Hvalid) as (_ & Hl & _).
  rewrite Hl, Hedit.
  destruct (truthy_some _ Hedit) as (eid & -> & Hne).
  rewrite (or_else_filled _ _ Hne). now apply map_replace_ids.
Qed.

(** X8. An update never changes the ids of the list nor their order, and so
    never its length: it can neither add nor drop a transaction. *)
Theorem update_keeps_ids (w : World) :
  all_filled (form w) = true ->
  JS.truthy (editingId w) = true ->
  let w' := after (perform JSON_stringify Submit) w in
  ids (expenses w') = ids (expenses w) /\
  length (expenses w') = length (expenses w).
Proof.
  intros Hvalid Hedit. cbn zeta. unfold after. cbn [perform].
  pose proof (update_ids w Hvalid Hedit) as Hids.
  split; [exact Hids|].
  apply (f_equal (@length string)) in Hids. unfold ids in Hids.
  now rewrite !length_map in Hids.
Qed.

Lemma NoDup_ids_filter (p : Transaction.t -> bool) (l : list Transaction.t) :
  List.NoDup (ids l) -> List.NoDup (ids (List.filter p l)).
Proof.
  induction l as [|e l IH]; cbn; [trivial|].
  intros H. inversion H as [|? ? Hnotin Hrest]; subst.
  destruct (p e); cbn; [|now apply IH].
  constructor; [|now apply IH].
  intros Hin. apply Hnotin. unfold ids in *.
  apply in_map_iff in Hin as (x & Hx & Hin).
  apply List.filter_In in Hin as [Hin _].
  apply in_map_iff. eauto.
Qed.

Lemma NoDup_ids_snoc (l : list Transaction.t) (e : Transaction.t) :
  List.NoDup (ids l) -> ~ In (Transaction.id e) (ids l) -> List.NoDup (ids (l ++ [e])).
Proof.
  induction l as [|x l IH]; cbn; intros H Hfresh.
  - constructor; [intros [] | constructor].
  - inversion H as [|? ? Hnotin Hrest]; subst. constructor.
    + unfold ids in *. rewrite map_app, in_app_iff. cbn. intros [Hin|[Heq|[]]].
      * contradiction.
      * apply Hfresh. now left.
    + apply IH; [assumption|]. intros Hin. apply Hfresh. now right.
Qed.

(** X9. The ids of the list stay pairwise different under every event,
    provided that an add happens at a clock reading whose decimal rendering
    is not already an id of the list. *)
Theorem ids_stay_unique (a : action) (w : World) :
  List.NoDup (ids (expenses w)) ->
  (a = Submit -> JS.truthy (editingId w) = false ->
     ~ In (pretty (clock w)) (ids (expenses w))) ->
  List.NoDup (ids (expenses (after (perform JSON_stringify a) w))).
Proof.
  intros Hunique Hfresh.
  destruct a as [|id [|]|pressed|name value|expense].
  - destruct (all_filled (form w)) eqn:Hvalid.
    + destruct (JS.truthy (editingId w)) eqn:Hedit.
      * unfold after. cbn [perform]. now rewrite update_ids.
      * destruct (addOrUpdateExpense_accepted JSON_stringify w Hvalid)
          as (_ & Hl & _).
        unfold after. cbn [perform]. rewrite Hl, Hedit.
        apply NoDup_ids_snoc; [assumption|]. cbn. now apply Hfresh.
    + unfold after. cbn [perform].
      now rewrite (addOrUpdateExpense_rejected JSON_stringify w Hvalid).
  - exact Hunique.
  - destruct (deleteExpense_ledger id w) as (-> & _).
    now apply NoDup_ids_filter.
  - destruct (perform_frame (Reset pressed) w) as (-> & _). exact Hunique.
  - destruct (perform_frame (Change name value) w) as (-> & _). exact Hunique.
  - destruct (perform_frame (Edit expense) w) as (-> & _). exact Hunique.
Qed.

Lemma map_replace_absent (eid : string) (new : Transaction.t)
    (l : list Transaction.t) :
  ~ In eid (ids l) ->
  map (fun e => if (eid =? Transaction.id e)%string then new else e) l = l.
Proof.
  induction l as [|x l IH]; cbn; intros Habsent; [reflexivity|].
  destruct (String.eqb_spec eid (Transaction.id x)) as [Heq|_].
  - exfalso. apply Habsent. left. now symmetry.
  - f_equal. apply IH. intros Hin. apply Habsent. now right.
Qed.

Lemma complete_fields (e : Transaction.t) :
  complete e = true ->
  Transaction.id e <> "" /\ Transaction.date e <> ""
  /\ Transaction.description e <> "" /\ Transaction.category e <> ""
  /\ Transaction.paymentMethod e <> "" /\ Transaction.type e <> "".
Proof.
  unfold complete. rewrite !andb_true_iff, !negb_true_iff.
  intros (((((H1 & H2) & H3) & H4) & H5) & H6).
  repeat split; intros Heq; rewrite Heq in *; discriminate.
Qed.

Lemma toString_not_empty (x : float) :
  JS.parseFloat (JS.Number_toString x) = x -> JS.Number_toString x <> "".
Proof.
  intros Hround Hempty. rewrite Hempty in Hround.
  assert (Hnan : JS.Number_toString nan = "NaN") by (vm_compute; reflexivity).
  assert (Hx : x = nan) by (rewrite <- Hround; vm_compute; reflexivity).
  rewrite Hx, Hnan in Hempty. discriminate.
Qed.

(** The world an edit press leaves, for a complete transaction whose amount
    reads back from its text. *)
Lemma editExpense_ready (e : Transaction.t) (w : World) :
  complete e = true ->
  JS.parseFloat (JS.Number_toString (Transaction.amount e)) = Transaction.amount e ->
  let w1 := after (perform JSON_stringify (Edit e)) w in
  all_filled (form w1) = true /\
  editingId w1 = Some (Transaction.id e) /\
  expense_of (Transaction.id e) (form w1) = e /\
  JS.strict_eq (Form.type (form w1)) "income" = is_income e /\
  expenses w1 = expenses w /\
  permanentBalance w1 = permanentBalance w /\
  permanentTotalIncome w1 = permanentTotalIncome w /\
  alerts w1 = alerts w.
Proof.
  intros Hcomplete Hround.
  destruct (complete_fields e Hcomplete) as (Hid & Hd & Hds & Hc & Hp & Ht).
  pose proof (toString_not_empty _ Hround) as Ha.
  cbn zeta. unfold after, perform, editExpense, try_catch, bind, setForm,
    setEditingId, modify, all_filled, expense_of, is_income.
  cbn [fst snd form editingId expenses permanentBalance permanentTotalIncome
       alerts Form.date Form.description Form.category Form.amount
       Form.paymentMethod Form.type].
  rewrite !truthy_filled.
  rewrite (or_else_filled _ "expense" Ht).
  rewrite !or_else_filled by assumption.
  rewrite Hround.
  repeat split.
  - destruct (String.eqb_spec (Transaction.date e) ""),
      (String.eqb_spec (Transaction.description e) ""),
      (String.eqb_spec (Transaction.category e) ""),
      (String.eqb_spec (JS.Number_toString (Transaction.amount e)) ""),
      (String.eqb_spec (Transaction.paymentMethod e) "");
      try contradiction; reflexivity.
  - now destruct e.
Qed.

(** X10. An update whose edit target is no longer in the list (the
    transaction was deleted while it was being edited) leaves the list as it
    is, but still moves the scalars by the amount of the form and reports the
    update as done. *)
Theorem update_of_missing_id (w : World) (eid : string) :
  all_filled (form w) = true ->
  editingId w = Some eid ->
  eid <> "" ->
  ~ In eid (ids (expenses w)) ->
  let w' := after (perform JSON_stringify Submit) w in
  let amount := JS.parseFloat (JS.or_else (Form.amount (form w)) "") in
  let income := JS.strict_eq (Form.type (form w)) "income" in
  expenses w' = expenses w /\
  permanentBalance w' =
    (if income then permanentBalance w + amount else permanentBalance w - amount)%float /\
  permanentTotalIncome w' =
    (if income then permanentTotalIncome w + amount else permanentTotalIncome w)%float /\
  alerts w' =
    alerts w ++ [("Success", if income then "Income updated" else "Expense updated")].
Proof.
  intros Hvalid Hedit Hne Habsent.
  destruct (addOrUpdateExpense_accepted JSON_stringify w Hvalid)
    as (_ & Hl & Hb & Hi & _ & _ & Ha).
  cbn zeta. unfold after. cbn [perform]. rewrite Hl, Hb, Hi, Ha, Hedit.
  rewrite truthy_filled. destruct (String.eqb_spec eid ""); [contradiction|].
  cbn [negb]. unfold JS.strict_eq at 1.
  rewrite (map_replace_absent _ _ _ Habsent).
  repeat split. destruct (JS.strict_eq (Form.type (form w)) "income"); reflexivity.
Qed.

(** X11. Deleting a transaction right after adding it brings the list back
    to what it was, but not the scalars: they keep the change the add made. *)
Theorem delete_does_not_undo_add (w : World) :
  all_filled (form w) = true ->
  JS.truthy (editingId w) = false ->
  ~ In (pretty (clock w)) (ids (expenses w)) ->
  let w1 := after (perform JSON_stringify Submit) w in
  let w2 := after (perform JSON_stringify (Delete (pretty (clock w)) Destructive)) w1 in
  let amount := JS.parseFloat (JS.or_else (Form.amount (form w)) "") in
  let income := JS.strict_eq (Form.type (form w)) "income" in
  expenses w1 = expenses w ++ [expense_of (pretty (clock w)) (form w)] /\
  expenses w2 = expenses w /\
  permanentBalance w2 =
    (if income then permanentBalance w + amount else permanentBalance w - amount)%float /\
  permanentTotalIncome w2 =
    (if income then permanentTotalIncome w + amount else permanentTotalIncome w)%float.
Proof.
  intros Hvalid Hnew Hfresh.
  destruct (addOrUpdateExpense_accepted JSON_stringify w Hvalid)
    as (_ & Hl & Hb & Hi & _).
  rewrite Hnew in Hl. cbn zeta.
  set (w1 := after (perform JSON_stringify Submit) w).
  change (snd (addOrUpdateExpense JSON_stringify w)) with w1 in Hl, Hb, Hi.
  destruct (deleteExpense_ledger (pretty (clock w)) w1) as (-> & -> & ->).
  rewrite Hl, Hb, Hi. split; [reflexivity|]. split; [|split; reflexivity].
  rewrite List.filter_app. cbn. rewrite String.eqb_refl. cbn.
  rewrite app_nil_r. apply filter_absent_id.
  apply List.Forall_forall. intros e Hin Heq. apply Hfresh.
  unfold ids. apply in_map_iff. eauto.
Qed.

(** X12. An add moves the derived totals by the amount written:
    [totalAmount] always, [totalIncome] when the type written is "income",
    [totalExpenses] when it is "expense". *)
Theorem create_moves_totals (w : World) :
  all_filled (form w) = true ->
  JS.truthy (editingId w) = false ->
  let l := expenses w in
  let l' := expenses (after (perform JSON_stringify Submit) w) in
  let e := expense_of (pretty (clock w)) (form w) in
  totalAmount l' = (totalAmount l + Transaction.amount e)%float /\
  totalIncome l' =
    (if is_income e then totalIncome l + Transaction.amount e else totalIncome l)%float /\
  totalExpenses l' =
    (if is_expense e then totalExpenses l + Transaction.amount e
     else totalExpenses l)%float.
Proof.
  intros Hvalid Hnew.
  destruct (addOrUpdateExpense_accepted JSON_stringify w Hvalid) as (_ & Hl & _).
  rewrite Hnew in Hl. cbn zeta. unfold after. cbn [perform]. rewrite Hl.
  unfold totalAmount, totalIncome, totalExpenses.
  rewrite !List.filter_app, !fold_left_app. cbn [List.filter].
  fold (is_income (expense_of (pretty (clock w)) (form w))).
  fold (is_expense (expense_of (pretty (clock w)) (form w))).
  destruct (is_income _), (is_expense _); repeat split.
Qed.

Lemma nan_absorbs (x : float) :
  (nan + x = nan /\ x + nan = nan /\ nan - x = nan /\ x - nan = nan)%float.
Proof.
  repeat split; apply Prim2SF_inj;
    rewrite ?add_spec, ?sub_spec;
    change (Prim2SF nan) with S754_nan;
    unfold SF64add, SF64sub, SFadd, SFsub;
    destruct (Prim2SF x) as [[|]|[|]| |[|] m e]; reflexivity.
Qed.

(** X13. An amount that does not parse to a number spoils the balance for
    good: an accepted submit whose amount parses to [NaN], or that starts
    from a balance that is [NaN], leaves the balance [NaN], for either
    type. *)
Theorem not_a_number_spreads (w : World) :
  all_filled (form w) = true ->
  JS.parseFloat (JS.or_else (Form.amount (form w)) "") = nan
  \/ permanentBalance w = nan ->
  permanentBalance (after (perform JSON_stringify Submit) w) = nan.
Proof.
  intros Hvalid Hnan.
  destruct (addOrUpdateExpense_accepted JSON_stringify w Hvalid) as (_ & _ & Hb & _).
  unfold after. cbn [perform]. rewrite Hb.
  destruct Hnan as [-> | ->];
    destruct (JS.strict_eq (Form.type (form w)) "income");
    apply nan_absorbs.
Qed.

Lemma fold_from_nan (l : list Transaction.t) :
  fold_left (fun sum e => (sum + Transaction.amount e)%float) l nan = nan.
Proof.
  induction l as [|e l IH]; cbn [fold_left]; [reflexivity|].
  now rewrite (proj1 (nan_absorbs (Transaction.amount e))).
Qed.

(** X14. One transaction whose amount is [NaN] makes [totalAmount] [NaN],
    whatever else the list holds. *)
Theorem total_with_not_a_number (l : list Transaction.t) (e : Transaction.t) :
  In e l -> Transaction.amount e = nan -> totalAmount l = nan.
Proof.
  unfold totalAmount. intros Hin Hnan. generalize 0%float as acc.
  induction l as [|x l IH]; intros acc; [contradiction|]. cbn [fold_left].
  destruct Hin as [->|Hin].
  - rewrite Hnan, (proj1 (proj2 (nan_absorbs acc))). apply fold_from_nan.
  - now apply IH.
Qed.

Lemma same_id_same_entry (l : list Transaction.t) (e x : Transaction.t) :
  List.NoDup (ids l) -> In e l -> In x l ->
  Transaction.id x = Transaction.id e -> x = e.
Proof.
  induction l as [|y l IH]; cbn; [contradiction|].
  intros H He Hx Heq. inversion H as [|? ? Hnotin Hrest]; subst.
  destruct He as [->|He], Hx as [->|Hx]; try reflexivity.
  - exfalso. apply Hnotin. unfold ids. rewrite <- Heq. now apply in_map.
  - exfalso. apply Hnotin. unfold ids. rewrite Heq. now apply in_map.
  - now apply IH.
Qed.

(** X15. A confirmed delete of an id of a list with pairwise different ids
    removes exactly one transaction. *)
Theorem delete_removes_one (id : string) (w : World) :
  List.NoDup (ids (expenses w)) ->
  In id (ids (expenses w)) ->
  S (length (expenses (after (perform JSON_stringify (Delete id Destructive)) w)))
  = length (expenses w).
Proof.
  intros Hunique Hin. destruct (deleteExpense_ledger id w) as (-> & _).
  induction (expenses w) as [|e l IH]; cbn in *; [contradiction|].
  inversion Hunique as [|? ? Hnotin Hrest]; subst.
  destruct (String.eqb_spec (Transaction.id e) id) as [Heq|Hne]; cbn.
  - f_equal. rewrite filter_absent_id; [reflexivity|].
    apply List.Forall_forall. intros x Hx Hid. apply Hnotin.
    unfold ids. rewrite Heq, <- Hid. now apply in_map.
  - f_equal. apply IH; [assumption|]. destruct Hin as [Heq|Hin]; [contradiction | assumption].
Qed.

(** X16. Pressing edit on a transaction and then update, with nothing
    typed in between, leaves the list exactly as it was and still moves the
    scalars by the amount of the transaction once more. *)
Theorem edit_then_update_counts_again (w : World) (e : Transaction.t) :
  In e (expenses w) ->
  List.NoDup (ids (expenses w)) ->
  complete e = true ->
  JS.parseFloat (JS.Number_toString (Transaction.amount e)) = Transaction.amount e ->
  let w' := after (perform JSON_stringify (Edit e);;
                   perform JSON_stringify Submit) w in
  expenses w' = expenses w /\
  permanentBalance w' =
    (if is_income e then permanentBalance w + Transaction.amount e
     else permanentBalance w - Transaction.amount e)%float /\
  permanentTotalIncome w' =
    (if is_income e then permanentTotalIncome w + Transaction.amount e
     else permanentTotalIncome w)%float.
Proof.
  intros Hin Hunique Hcomplete Hround.
  destruct (editExpense_ready e w Hcomplete Hround)
    as (Hvalid & Hedit & Hnew & Hincome & Hl & Hb & Hi & _).
  destruct (complete_fields e Hcomplete) as (Hid & _).
  cbn zeta.
  set (w1 := after (perform JSON_stringify (Edit e)) w) in *.
  rewrite after_event. fold w1.
  change (after (perform JSON_stringify Submit) w1)
    with (snd (addOrUpdateExpense JSON_stringify w1)).
  destruct (addOrUpdateExpense_accepted JSON_stringify w1 Hvalid)
    as (_ & Hl' & Hb' & Hi' & _).
  rewrite Hl', Hb', Hi', Hedit, Hincome, Hl, Hb, Hi.
  rewrite truthy_filled. destruct (String.eqb_spec (Transaction.id e) "");
    [contradiction|]. cbn [negb].
  rewrite (or_else_filled _ _ Hid), Hnew.
  assert (Hamount : JS.parseFloat (JS.or_else (Form.amount (form w1)) "")
                    = Transaction.amount e).
  { exact (f_equal Transaction.amount Hnew). }
  rewrite Hamount. repeat split.
  rewrite <- (map_id (expenses w)) at 2. apply map_ext_in.
  intros x Hx. unfold JS.strict_eq.
  destruct (String.eqb_spec (Transaction.id e) (Transaction.id x)) as [Heq|_];
    [|reflexivity].
  symmetry. now apply (same_id_same_entry (expenses w)).
Qed.

(** X17. Deleting a transaction while it is being edited does not end the
    edit: a following update finds no transaction to replace, leaves the list
    without it, and all the same moves the scalars by its amount. *)
Theorem delete_during_edit_still_counts (w : World) (e : Transaction.t) :
  complete e = true ->
  JS.parseFloat (JS.Number_toString (Transaction.amount e)) = Transaction.amount e ->
  let w' := after (perform JSON_stringify (Edit e);;
                   perform JSON_stringify (Delete (Transaction.id e) Destructive);;
                   perform JSON_stringify Submit) w in
  removed (Transaction.id e) (expenses w) (expenses w') /\
  Forall (fun x => Transaction.id x <> Transaction.id e) (expenses w') /\
  permanentBalance w' =
    (if is_income e then permanentBalance w + Transaction.amount e
     else permanentBalance w - Transaction.amount e)%float.
Proof.
  intros Hcomplete Hround.
  destruct (editExpense_ready e w Hcomplete Hround)
    as (Hvalid & Hedit & Hnew & Hincome & Hl & Hb & Hi & _).
  destruct (complete_fields e Hcomplete) as (Hid & _).
  cbn zeta.
  set (w1 := after (perform JSON_stringify (Edit e)) w) in *.
  set (w2 := after (perform JSON_stringify (Delete (Transaction.id e) Destructive)) w1).
  rewrite !after_event. fold w1. fold w2.
  change (after (perform JSON_stringify Submit) w2)
    with (snd (addOrUpdateExpense JSON_stringify w2)).
  destruct (deleteExpense_ledger (Transaction.id e) w1) as (Hl2 & Hb2 & _).
  destruct (perform_frame (Delete (Transaction.id e) Destructive) w1)
    as (_ & _ & Hform2 & Hedit2).
  fold w2 in Hl2, Hb2, Hform2, Hedit2.
  assert (Hvalid2 : all_filled (form w2) = true) by now rewrite Hform2.
  destruct (addOrUpdateExpense_accepted JSON_stringify w2 Hvalid2)
    as (_ & Hl' & Hb' & _).
  rewrite Hl', Hb', Hedit2, Hedit, Hform2, Hincome, Hl2, Hb2, Hl, Hb.
  rewrite truthy_filled. destruct (String.eqb_spec (Transaction.id e) "");
    [contradiction|]. cbn [negb]. unfold JS.strict_eq.
  assert (Hamount : JS.parseFloat (JS.or_else (Form.amount (form w1)) "")
                    = Transaction.amount e).
  { exact (f_equal Transaction.amount Hnew). }
  rewrite Hamount.
  rewrite map_replace_absent.
  - split; [apply removed_filter|]. split; [apply filter_other_ids | reflexivity].
  - intros Hin. unfold ids in Hin. apply in_map_iff in Hin as (x & Hx & Hin).
    pose proof (filter_other_ids (Transaction.id e) (expenses w)) as Hall.
    apply (proj1 (List.Forall_forall _ _) Hall x Hin). exact Hx.
Qed.

(** X18. A change of one field of the form leaves the ledger, the edit
    target and the store alone; changes of two different fields can be made
    in either order, and of two changes of the same field the later one
    stands. *)
Theorem handleChange_one_field (n1 n2 : Field.t) (v1 v2 : JS.value) (w : World) :
  let change n v := perform JSON_stringify (Change n v) in
  (ledger (after (change n1 v1) w), editingId (after (change n1 v1) w),
   storage (after (change n1 v1) w))
  = (ledger w, editingId w, storage w) /\
  (n1 <> n2 ->
   after (change n1 v1;; change n2 v2) w = after (change n2 v2;; change n1 v1) w) /\
  after (change n1 v1;; change n1 v2) w = after (change n1 v2) w.
Proof.
  cbn zeta. split; [destruct n1; reflexivity|]. split.
  - destruct n1, n2; intros Hne; try contradiction; reflexivity.
  - destruct n1; reflexivity.
Qed.

End Handlers.

(** ** Further properties: mounting over the store *)

Section Mount.

Variable JSON_stringify : json -> string.
Variable JSON_parse : string -> option json.

Lemma transaction_of_json_of_transaction (e : Transaction.t) :
  transaction_of_json (json_of_transaction e) = Some e.
Proof. now destruct e. Qed.

Lemma expenses_of_json_of_expenses (l : list Transaction.t) :
  expenses_of_json (json_of_expenses l) = Some l.
Proof.
  unfold json_of_expenses, expenses_of_json.
  induction l as [|e l IH]; [reflexivity|].
  cbn [map transactions_of_json].
  now rewrite transaction_of_json_of_transaction, IH.
Qed.

Lemma json_of_expenses_empty (l : list Transaction.t) :
  json_of_expenses l = JArray [] -> l = [].
Proof. destruct l; [reflexivity | discriminate]. Qed.

Lemma load_absent (r : record) (w : World) :
  getItem_rejects w (key_of r) = false ->
  storage w !! key_of r = None ->
  load JSON_parse r w = (Normal (default_of r), w).
Proof.
  intros Hread Habsent.
  destruct r; unfold load, loadExpensesFromStorage, loadBalanceFromStorage,
    loadTotalIncomeFromStorage, try_catch, bind, AsyncStorage_getItem;
    cbn -[lookup] in *; rewrite Hread; cbn -[lookup]; rewrite Habsent;
    reflexivity.
Qed.

Lemma load_reads_as (r : record) (v : json) (w : World) :
  getItem_rejects w (key_of r) = false ->
  reads_as JSON_parse (key_of r) v (default_of r) (storage w) ->
  load JSON_parse r w = (Normal v, w).
Proof.
  intros Hread [[Habsent ->]|(text & Hstored & Htext & Hparse)].
  - now apply load_absent.
  - now apply (load_present JSON_parse r w text).
Qed.

(** A load whose record is absent or unreadable: the default, and at most a
    message logged. *)
Lemma load_default (r : record) (w : World) :
  absent_or_unreadable JSON_parse (key_of r) w ->
  exists w',
    load JSON_parse r w = (Normal (default_of r), w') /\
    storage w' = storage w /\ getItem_rejects w' = getItem_rejects w /\
    ledger w' = ledger w.
Proof.
  intros Hcase.
  destruct r; unfold load, loadExpensesFromStorage, loadBalanceFromStorage,
    loadTotalIncomeFromStorage, absent_or_unreadable, JSON_parse_or_throw,
    try_catch, bind, ret, throw, AsyncStorage_getItem, console_error, modify
    in *; cbn -[lookup] in *;
    (destruct (getItem_rejects w _); cbn -[lookup];
       [eexists; repeat split|]);
    (destruct (storage w !! _) as [text|] eqn:Hstored; cbn -[lookup];
       [|eexists; repeat split]);
    (destruct (String.eqb_spec text ""); cbn -[lookup];
       [eexists; repeat split|]);
    (destruct (JSON_parse text) as [v|] eqn:Hparse; cbn -[lookup];
       [|eexists; repeat split]);
    exfalso; destruct Hcase as [H|[H|[H|(text' & H & Hfail)]]]; congruence.
Qed.

(** X19. Mounting the component over a store that holds the ledger of a
    world, with no read rejected, brings that ledger back: the transaction
    list, the balance and the cumulative income. *)
Theorem restart_restores_ledger (w : World) :
  readable w ->
  restorable JSON_parse w ->
  let r := loadData JSON_parse (mount w) in
  fst r = Normal true /\ ledger (snd r) = ledger w.
Proof.
  intros Hread (He & Hb & Hi). cbn zeta. unfold loadData, bind.
  change (loadExpensesFromStorage JSON_parse) with (load JSON_parse Expenses).
  change (loadBalanceFromStorage JSON_parse) with (load JSON_parse Balance).
  change (loadTotalIncomeFromStorage JSON_parse) with (load JSON_parse TotalIncome).
  rewrite (load_reads_as Expenses (json_of_expenses (expenses w)))
    by (try apply Hread; exact He).
  rewrite (load_reads_as Balance (JNumber (permanentBalance w)))
    by (try apply Hread; exact Hb).
  rewrite (load_reads_as TotalIncome (JNumber (permanentTotalIncome w)))
    by (try apply Hread; exact Hi).
  rewrite expenses_of_json_of_expenses. cbn. split; reflexivity.
Qed.

(** X20. Mounting over a store in which each of the three records is absent
    or unreadable starts from the empty ledger: no transaction, balance and
    cumulative income 0. *)
Theorem mount_without_records (w : World) :
  (forall r, absent_or_unreadable JSON_parse (key_of r) w) ->
  let r := loadData JSON_parse (mount w) in
  fst r = Normal true /\ ledger (snd r) = ([], 0%float, 0%float).
Proof.
  intros Hnone. cbn zeta. unfold loadData, bind.
  change (loadExpensesFromStorage JSON_parse) with (load JSON_parse Expenses).
  change (loadBalanceFromStorage JSON_parse) with (load JSON_parse Balance).
  change (loadTotalIncomeFromStorage JSON_parse) with (load JSON_parse TotalIncome).
  destruct (load_default Expenses (mount w)) as (w1 & -> & Hs1 & Hr1 & _);
    [exact (Hnone Expenses)|].
  destruct (load_default Balance w1) as (w2 & -> & Hs2 & Hr2 & _).
  { unfold absent_or_unreadable. rewrite Hs1, Hr1. exact (Hnone Balance). }
  destruct (load_default TotalIncome w2) as (w3 & -> & _).
  { unfold absent_or_unreadable. rewrite Hs2, Hr2, Hs1, Hr1. exact (Hnone TotalIncome). }
  cbn. split; reflexivity.
Qed.

Lemma reads_as_written (r : record) (v : json) (store : gmap string string) :
  roundtrips JSON_stringify JSON_parse v ->
  reads_as JSON_parse (key_of r) v (default_of r)
    (<[key_of r := JSON_stringify v]> store).
Proof.
  intros [Htext Hparse]. right. exists (JSON_stringify v).
  split; [apply lookup_insert_eq | split; assumption].
Qed.

Lemma reads_as_other (key key' : string) (text : string) (v default : json)
    (store : gmap string string) :
  key' <> key ->
  reads_as JSON_parse key v default store ->
  reads_as JSON_parse key v default (<[key' := text]> store).
Proof.
  intros Hne. unfold reads_as. now rewrite lookup_insert_ne.
Qed.

(** X21. The store stays in step with the ledger: when the store accepts
    every write and held the ledger before an event, it holds the ledger
    after the event, provided the JSON texts of the new list, balance and
    cumulative income read back to them. *)
Theorem events_keep_store_in_step (a : action) (w : World) :
  accepts_writes w ->
  restorable JSON_parse w ->
  let w' := after (perform JSON_stringify a) w in
  roundtrips JSON_stringify JSON_parse (json_of_expenses (expenses w')) ->
  roundtrips JSON_stringify JSON_parse (JNumber (permanentBalance w')) ->
  roundtrips JSON_stringify JSON_parse (JNumber (permanentTotalIncome w')) ->
  restorable JSON_parse w'.
Proof.
  intros Hwrites (He & Hb & Hi) w' Hre Hrb Hri.
  unfold restorable. pose proof (perform_storage JSON_stringify a w) as Hstore.
  cbn zeta in Hstore. fold w' in Hstore. unfold put in Hstore.
  rewrite !Hwrites in Hstore.
  destruct a as [|id [|]|[|]|name value|expense].
  - destruct (all_filled (form w)) eqn:Hvalid.
    + rewrite Hstore. repeat split.
      * apply reads_as_other; [discriminate|].
        apply reads_as_other; [discriminate|].
        apply (reads_as_written Expenses); assumption.
      * apply reads_as_other; [discriminate|].
        apply (reads_as_written Balance); assumption.
      * apply (reads_as_written TotalIncome); assumption.
    + subst w'. unfold after in *. cbn [perform] in *.
      rewrite (addOrUpdateExpense_rejected JSON_stringify w Hvalid) in *.
      cbn in *. repeat split; assumption.
  - repeat split; assumption.
  - destruct (deleteExpense_ledger JSON_stringify id w) as (_ & Hb' & Hi').
    fold w' in Hb', Hi'. rewrite Hstore, Hb', Hi'. repeat split.
    + apply (reads_as_written Expenses); assumption.
    + apply reads_as_other; [discriminate | assumption].
    + apply reads_as_other; [discriminate | assumption].
  - repeat split; assumption.
  - destruct (perform_frame JSON_stringify (Reset Destructive) w)
      as (He' & Hi' & _).
    fold w' in He', Hi'. rewrite Hstore, He', Hi'. repeat split.
    + apply reads_as_other; [discriminate | assumption].
    + apply (reads_as_written Balance); assumption.
    + apply reads_as_other; [discriminate | assumption].
  - destruct (perform_frame JSON_stringify (Change name value) w)
      as (He' & Hb' & Hi' & _).
    fold w' in He', Hb', Hi'. rewrite Hstore, He', Hb', Hi'.
    repeat split; assumption.
  - destruct (perform_frame JSON_stringify (Edit expense) w)
      as (He' & Hb' & Hi').
    fold w' in He', Hb', Hi'. rewrite Hstore, He', Hb', Hi'.
    repeat split; assumption.
Qed.

(** What [loadData] returns and the ledger it leaves depend on the store and
    on the reads that reject, not on the alerts shown or the messages logged
    before. *)
Lemma loadData_from_store (w1 w2 : World) :
  storage w1 = storage w2 ->
  getItem_rejects w1 = getItem_rejects w2 ->
  ledger w1 = ledger w2 ->
  (fst (loadData JSON_parse w1), ledger (snd (loadData JSON_parse w1)))
  = (fst (loadData JSON_parse w2), ledger (snd (loadData JSON_parse w2))).
Proof.
  destruct w1, w2. unfold ledger. cbn. intros -> -> Hledger.
  inversion Hledger; subst.
  unfold loadData, loadExpensesFromStorage, loadBalanceFromStorage,
    loadTotalIncomeFromStorage, JSON_parse_or_throw, try_catch, bind, ret,
    throw, AsyncStorage_getItem, console_error, modify, setExpenses,
    setPermanentBalance, setPermanentTotalIncome.
  cbn -[lookup].
  repeat match goal with
         | |- context [if ?b then _ else _] => destruct b; cbn -[lookup]
         | |- context [match ?x with Some _ => _ | None => _ end] =>
             destruct x; cbn -[lookup]
         end;
    reflexivity.
Qed.

(** X22. What happened while the store rejected every write is gone at the
    next mount: the event leaves the store as it was, so mounting afterwards
    gives the ledger that mounting before would have given. *)
Theorem rejected_writes_are_lost (a : action) (w : World) :
  rejects_writes w ->
  let w' := after (perform JSON_stringify a) w in
  storage w' = storage w /\
  (fst (loadData JSON_parse (mount w')), ledger (snd (loadData JSON_parse (mount w'))))
  = (fst (loadData JSON_parse (mount w)), ledger (snd (loadData JSON_parse (mount w)))).
Proof.
  intros Hrejects w'.
  assert (Hstore : storage w' = storage w).
  { pose proof (perform_storage JSON_stringify a w) as Hstore.
    cbn zeta in Hstore. fold w' in Hstore. unfold put in Hstore.
    rewrite !Hrejects in Hstore.
    destruct a as [|id [|]|[|]|name value|expense]; try assumption.
    now destruct (all_filled (form w)). }
  split; [assumption|].
  destruct (perform_devices JSON_stringify a w) as (_ & _ & Hreads).
  fold w' in Hreads.
  apply loadData_from_store; cbn; [assumption | assumption | reflexivity].
Qed.

End Mount.

(** ** Further properties: what the amount field accepts, and what a
    [NaN] balance is saved as *)

Lemma span_digits_prefix (d t : string) :
  digits_only d = true ->
  ends_number t = true ->
  JS.span_digits (String.append d t) = (fst (JS.span_digits d), t)
  /\ snd (JS.span_digits d) = "".
Proof.
  intros Hd Ht. induction d as [|c d IH].
  - change (String.append "" t) with t.
    destruct t as [|c t]; [split; reflexivity|].
    cbn -[JS.digit_of] in *.
    destruct (JS.digit_of c); [discriminate | split; reflexivity].
  - change (String.append (String c d) t) with (String c (String.append d t)).
    cbn -[JS.digit_of String.append] in *.
    destruct (JS.digit_of c) as [v|]; [|discriminate].
    cbn -[JS.digit_of String.append] in Hd.
    destruct (IH Hd) as [Happ Hrest]. rewrite Happ.
    destruct (JS.span_digits d) as [ds rest]. cbn in *. now subst.
Qed.

Lemma number_tail (t : string) :
  ends_number t = true ->
  match t with
  | String "." r => JS.span_digits r
  | _ => ([], t)
  end = ([], t)
  /\ JS.exponent_part t = 0.
Proof.
  destruct t as [|c t]; [split; reflexivity|].
  destruct c as [[] [] [] [] [] [] [] []]; cbn; intros H;
    try discriminate; split; reflexivity.
Qed.

Lemma digit_starts_literal (c : ascii) (r : string) :
  JS.digit_of c <> None ->
  JS.parseFloat (String c r)
  = match JS.unsigned_literal (String c r) with
    | Some a => a
    | None => nan
    end
  /\ String.prefix "Infinity" (String c r) = false.
Proof.
  destruct c as [[] [] [] [] [] [] [] []]; cbn; intros H;
    try contradiction; split; reflexivity.
Qed.

(** [parseFloat] reads the digits at the front and ignores what follows
    them. *)
Lemma parseFloat_leading_digits (d t : string) :
  d <> "" ->
  digits_only d = true ->
  ends_number t = true ->
  JS.parseFloat (String.append d t) = JS.parseFloat d.
Proof.
  intros Hne Hd Ht. destruct d as [|c d]; [contradiction|].
  assert (Hc : JS.digit_of c <> None).
  { cbn in Hd. destruct (JS.digit_of c); [discriminate | discriminate]. }
  change (String.append (String c d) t) with (String c (String.append d t)).
  destruct (digit_starts_literal c (String.append d t) Hc) as [-> Hinf1].
  destruct (digit_starts_literal c d Hc) as [-> Hinf2].
  unfold JS.unsigned_literal. rewrite Hinf1, Hinf2.
  destruct (span_digits_prefix (String c d) t Hd Ht) as [Happ Hrest].
  change (String.append (String c d) t) with (String c (String.append d t)) in Happ.
  rewrite Happ.
  destruct (JS.span_digits (String c d)) as [ip rest] eqn:Hspan.
  cbn [fst snd] in *. subst rest.
  destruct (number_tail t Ht) as [-> ->].
  destruct ip as [|v ip]; reflexivity.
Qed.

(** X23. The amount field is read by its leading digits: when the amount
    typed is a run of digits followed by a text that cannot continue a
    number (letters, say), the submit is accepted and moves the balance by
    the value of the digits alone. *)
Theorem amount_reads_leading_digits (JSON_stringify : json -> string)
    (w : World) (d t : string) :
  all_filled (form w) = true ->
  Form.amount (form w) = Some (String.append d t) ->
  d <> "" ->
  digits_only d = true ->
  ends_number t = true ->
  let w' := after (perform JSON_stringify Submit) w in
  let income := JS.strict_eq (Form.type (form w)) "income" in
  permanentBalance w' =
    (if income then permanentBalance w + JS.parseFloat d
     else permanentBalance w - JS.parseFloat d)%float /\
  exists shown, alerts w' = alerts w ++ [("Success", shown)].
Proof.
  intros Hvalid Hamount Hne Hd Ht.
  destruct (addOrUpdateExpense_accepted JSON_stringify w Hvalid)
    as (_ & _ & Hb & _ & _ & _ & Ha).
  cbn zeta. unfold after. cbn [perform]. rewrite Hb, Ha, Hamount.
  assert (Hfilled : String.append d t <> "").
  { destruct d; [contradiction | discriminate]. }
  rewrite (or_else_filled _ _ Hfilled), (parseFloat_leading_digits d t Hne Hd Ht).
  split; [reflexivity | eauto].
Qed.

(** The balance after a submit whose amount or starting balance is [NaN]. *)
Lemma submit_not_a_number (JSON_stringify : json -> string) (w : World) :
  all_filled (form w) = true ->
  JS.parseFloat (JS.or_else (Form.amount (form w)) "") = nan
  \/ permanentBalance w = nan ->
  permanentBalance (after (perform JSON_stringify Submit) w) = nan.
Proof.
  intros Hvalid Hnan.
  destruct (addOrUpdateExpense_accepted JSON_stringify w Hvalid) as (_ & _ & Hb & _).
  unfold after. cbn [perform]. rewrite Hb.
  destruct Hnan as [-> | ->];
    destruct (JS.strict_eq (Form.type (form w)) "income");
    apply nan_absorbs.
Qed.

(** X24. A [NaN] balance does not survive in the store as a number: the
    text [JSON.stringify] writes for it is [null], so after a submit that
    leaves the balance [NaN] the balance record holds [null], and a load of it
    returns [null], neither the balance nor the default 0. *)
Theorem not_a_number_is_stored_as_null (w : World) :
  all_filled (form w) = true ->
  JS.parseFloat (JS.or_else (Form.amount (form w)) "") = nan
  \/ permanentBalance w = nan ->
  setItem_rejects w BALANCE_KEY = false ->
  getItem_rejects w BALANCE_KEY = false ->
  let w' := after (perform JSON.stringify Submit) w in
  storage w' !! BALANCE_KEY = Some "null" /\
  fst (load JSON.parse Balance w') = Normal JNull.
Proof.
  intros Hvalid Hnan Hwrite Hread w'.
  pose proof (submit_not_a_number JSON.stringify w Hvalid Hnan) as Hb.
  pose proof (perform_storage JSON.stringify Submit w) as Hstore.
  cbn zeta in Hstore. fold w' in Hstore, Hb. rewrite Hvalid, Hb in Hstore.
  assert (Hstored : storage w' !! BALANCE_KEY = Some "null").
  { rewrite Hstore. unfold put. cbn [key_of]. rewrite Hwrite.
    destruct (setItem_rejects w TOTAL_INCOME_KEY);
      rewrite ?lookup_insert_ne by discriminate; apply lookup_insert_eq. }
  split; [exact Hstored|].
  destruct (perform_devices JSON.stringify Submit w) as (_ & _ & Hreads).
  fold w' in Hreads.
  rewrite (load_present JSON.parse Balance w' "null" JNull); try reflexivity.
  - cbn [key_of]. now rewrite Hreads.
  - exact Hstored.
  - discriminate.
Qed.

(** ** The further properties at work *)

Lemma save_then_load_witness :
  fst ((save JSON.stringify (SaveBalance 800);; load JSON.parse Balance) ledger_kept)
  = Normal (JNumber 800).
Proof.
  apply (save_then_load JSON.stringify JSON.parse (SaveBalance 800) ledger_kept).
  - reflexivity.
  - reflexivity.
  - split; [vm_compute; discriminate | vm_compute; reflexivity].
Defined.

Lemma save_leaves_loads_alone_witness :
  fst ((save JSON.stringify (SaveBalance 0);; load JSON.parse Balance) ledger_lost)
  = fst (load JSON.parse Balance ledger_lost).
Proof.
  apply (save_leaves_loads_alone JSON.stringify JSON.parse (SaveBalance 0) Balance
           ledger_lost).
  left. reflexivity.
Defined.

Lemma load_returns_what_is_stored_witness :
  load JSON.parse Expenses null_list_stored = (Normal JNull, null_list_stored).
Proof.
  apply (load_returns_what_is_stored JSON.parse Expenses null_list_stored "null").
  - reflexivity.
  - vm_compute. reflexivity.
  - discriminate.
  - vm_compute. reflexivity.
Defined.

Lemma saves_commute_witness :
  storage (snd ((save JSON.stringify (SaveBalance 5);;
                 save JSON.stringify (SaveTotalIncome 7)) ledger_kept))
  = storage (snd ((save JSON.stringify (SaveTotalIncome 7);;
                   save JSON.stringify (SaveBalance 5)) ledger_kept)).
Proof.
  refine (proj1 (saves_commute JSON.stringify (SaveBalance 5) (SaveTotalIncome 7)
                   ledger_kept _)).
  discriminate.
Defined.

Lemma submit_twice_adds_once_witness :
  ledger (after (perform JSON.stringify Submit)
            (after (perform JSON.stringify Submit) salary_typed))
  = ledger (after (perform JSON.stringify Submit) salary_typed).
Proof.
  exact (proj1 (proj2 (proj2 (submit_twice_adds_once JSON.stringify salary_typed
                                eq_refl)))).
Defined.

Lemma update_keeps_ids_witness :
  ids (expenses (after (perform JSON.stringify Submit) raise_typed))
  = ids (expenses raise_typed).
Proof.
  exact (proj1 (update_keeps_ids JSON.stringify raise_typed eq_refl eq_refl)).
Defined.

Lemma ids_stay_unique_witness :
  List.NoDup (ids (expenses (after (perform JSON.stringify Submit) sweets_typed))).
Proof.
  apply (ids_stay_unique JSON.stringify Submit sweets_typed).
  - vm_compute. constructor; [intros [] | constructor].
  - intros _ _. vm_compute. intros [H|[]]. discriminate H.
Defined.

Lemma update_of_missing_id_witness :
  expenses (after (perform JSON.stringify Submit)
              (after (fill raise;; edit "1600000000000") salary_and_lunch))
  = expenses (after (fill raise;; edit "1600000000000") salary_and_lunch).
Proof.
  refine (proj1 (update_of_missing_id JSON.stringify
                   (after (fill raise;; edit "1600000000000") salary_and_lunch)
                   "1600000000000" eq_refl eq_refl _ _)).
  - discriminate.
  - vm_compute. intros [H|[H|[]]]; discriminate H.
Defined.

Lemma delete_does_not_undo_add_witness :
  expenses (after (perform JSON.stringify (Delete (pretty (clock sweets_typed)) Destructive))
              (after (perform JSON.stringify Submit) sweets_typed))
  = expenses sweets_typed.
Proof.
  refine (proj1 (proj2 (delete_does_not_undo_add JSON.stringify sweets_typed
                          eq_refl eq_refl _))).
  vm_compute. intros [H|[]]. discriminate H.
Defined.

Lemma create_moves_totals_witness :
  totalAmount (expenses (after (perform JSON.stringify Submit) sweets_typed))
  = (totalAmount (expenses sweets_typed)
     + Transaction.amount (expense_of (pretty (clock sweets_typed)) (form sweets_typed)))%float.
Proof.
  exact (proj1 (create_moves_totals JSON.stringify sweets_typed eq_refl eq_refl)).
Defined.

Lemma not_a_number_spreads_witness :
  permanentBalance (after (perform JSON.stringify Submit) not_a_number_typed) = nan.
Proof.
  apply (not_a_number_spreads JSON.stringify not_a_number_typed).
  - reflexivity.
  - left. vm_compute. reflexivity.
Defined.

Lemma total_with_not_a_number_witness :
  totalAmount (expenses (after (perform JSON.stringify Submit) not_a_number_typed))
  = nan.
Proof.
  apply (total_with_not_a_number _ (expense_of "1700000060000" not_a_number)).
  - vm_compute. right. right. left. reflexivity.
  - vm_compute. reflexivity.
Defined.

Lemma delete_removes_one_witness :
  S (length (expenses (after (perform JSON.stringify (Delete "1700000060000" Destructive))
                         ledger_kept)))
  = length (expenses ledger_kept).
Proof.
  apply (delete_removes_one JSON.stringify "1700000060000" ledger_kept).
  - vm_compute. constructor.
    + intros [H|[]]. discriminate H.
    + constructor; [intros [] | constructor].
  - vm_compute. right. left. reflexivity.
Defined.

Lemma ledger_kept_ids_unique : List.NoDup (ids (expenses ledger_kept)).
Proof.
  vm_compute. constructor.
  - intros [H|[]]. discriminate H.
  - constructor; [intros [] | constructor].
Qed.

Lemma edit_then_update_counts_again_witness :
  expenses (after (perform JSON.stringify (Edit salary_entry);;
                   perform JSON.stringify Submit) ledger_kept)
  = expenses ledger_kept
  /\ permanentBalance (after (perform JSON.stringify (Edit salary_entry);;
                             perform JSON.stringify Submit) ledger_kept)
     = 1800%float.
Proof.
  destruct (edit_then_update_counts_again JSON.stringify ledger_kept salary_entry)
    as (Hl & Hb & _).
  - vm_compute. left. reflexivity.
  - exact ledger_kept_ids_unique.
  - reflexivity.
  - vm_compute. reflexivity.
  - split; [exact Hl|]. rewrite Hb. vm_compute. reflexivity.
Defined.

Lemma delete_during_edit_still_counts_witness :
  permanentBalance
    (after (perform JSON.stringify (Edit lunch_entry);;
            perform JSON.stringify (Delete (Transaction.id lunch_entry) Destructive);;
            perform JSON.stringify Submit) ledger_kept)
  = 600%float.
Proof.
  destruct (delete_during_edit_still_counts JSON.stringify ledger_kept lunch_entry)
    as (_ & _ & Hb).
  - reflexivity.
  - vm_compute. reflexivity.
  - rewrite Hb. vm_compute. reflexivity.
Defined.

Lemma handleChange_one_field_witness :
  after (perform JSON.stringify (Change Field.type (Some "income"));;
         perform JSON.stringify (Change Field.amount (Some "12"))) salary_typed
  = after (perform JSON.stringify (Change Field.amount (Some "12"));;
           perform JSON.stringify (Change Field.type (Some "income"))) salary_typed.
Proof.
  apply (proj1 (proj2 (handleChange_one_field JSON.stringify Field.type
                         Field.amount (Some "income") (Some "12") salary_typed))).
  discriminate.
Defined.

Lemma ledger_kept_restorable : restorable JSON.parse ledger_kept.
Proof.
  repeat split; right; eexists;
    (split; [vm_compute; reflexivity|]);
    (split; [discriminate | vm_compute; reflexivity]).
Qed.

Lemma restart_restores_ledger_witness :
  ledger (snd (loadData JSON.parse (mount ledger_kept)))
  = ([salary_entry; lunch_entry], 800%float, 1000%float).
Proof.
  destruct (restart_restores_ledger JSON.parse ledger_kept) as (_ & Hledger).
  - intros key. reflexivity.
  - exact ledger_kept_restorable.
  - rewrite Hledger. vm_compute. reflexivity.
Defined.

Lemma mount_without_records_witness :
  ledger (snd (loadData JSON.parse (mount (initial_world 1700000000000 store_ok))))
  = ([], 0%float, 0%float).
Proof.
  apply (mount_without_records JSON.parse (initial_world 1700000000000 store_ok)).
  intros r. right. left. destruct r; reflexivity.
Defined.

Lemma events_keep_store_in_step_witness :
  restorable JSON.parse
    (after (perform JSON.stringify (Delete "1700000000000" Destructive)) ledger_kept).
Proof.
  apply (events_keep_store_in_step JSON.stringify JSON.parse
           (Delete "1700000000000" Destructive) ledger_kept).
  - intros key. reflexivity.
  - exact ledger_kept_restorable.
  - split; [vm_compute; discriminate | vm_compute; reflexivity].
  - split; [vm_compute; discriminate | vm_compute; reflexivity].
  - split; [vm_compute; discriminate | vm_compute; reflexivity].
Defined.

Lemma rejected_writes_are_lost_witness :
  storage (after (perform JSON.stringify Submit) salary_typed_store_down)
  = storage salary_typed_store_down
  /\ ledger (after (perform JSON.stringify Submit) salary_typed_store_down)
     = ([salary_entry], 1000%float, 1000%float)
  /\ ledger (snd (loadData JSON.parse
                    (mount (after (perform JSON.stringify Submit)
                              salary_typed_store_down))))
     = ([], 0%float, 0%float).
Proof.
  destruct (rejected_writes_are_lost JSON.stringify JSON.parse Submit
              salary_typed_store_down) as (Hstore & Hmount).
  - intros key. reflexivity.
  - split; [exact Hstore|]. split; [vm_compute; reflexivity|].
    apply (f_equal snd) in Hmount. cbn [snd] in Hmount. rewrite Hmount.
    vm_compute. reflexivity.
Defined.

Lemma amount_reads_leading_digits_witness :
  permanentBalance
    (after (perform JSON.stringify Submit)
       (after (fill (entry "2024-01-09" "Bus" "Travel" "12abc" "Cash" "expense"))
          ledger_kept))
  = (800 - JS.parseFloat "12")%float.
Proof.
  refine (proj1 (amount_reads_leading_digits JSON.stringify
                   (after (fill (entry "2024-01-09" "Bus" "Travel" "12abc" "Cash"
                                   "expense")) ledger_kept)
                   "12" "abc" eq_refl eq_refl _ eq_refl eq_refl)).
  discriminate.
Defined.

Lemma not_a_number_is_stored_as_null_witness :
  fst (load JSON.parse Balance
         (after (perform JSON.stringify Submit) not_a_number_typed))
  = Normal JNull.
Proof.
  refine (proj2 (not_a_number_is_stored_as_null not_a_number_typed eq_refl _
                   eq_refl eq_refl)).
  left. vm_compute. reflexivity.
Defined.
